(** * Flower Shop signup and product API: a shallow embedding

    The development follows [signup.py] and [product.py].

    - Python [str] values are [string]s; a character is an [ascii], read as
      the code point of the same number (0..255).
    - A Python [dict] with [str] keys is a [gmap string _]; the product
      store, a JSON array, is a [list].
    - [time.time()] is a Python float; its readings are modelled by exact
      rationals [Q].  A product price is a [pyfloat]: a rational, an
      infinity or a NaN, compared as Python compares floats.
    - A handler runs in a state-and-exception monad over a [world]: the
      three JSON files, the clock, the random generator, the uuid source and
      the console.
    - The handlers are modelled on the files that they write themselves and
      on strings of code points below 256.  The loaders on every file
      ([Disk]) and the password check on every string of code points
      ([Unicode]) are modelled beside them, and shown to agree with them
      there. *)

From Stdlib Require Import Ascii String QArith Qround Lqa.
From stdpp Require Import gmap strings list fin_maps pretty.

Open Scope string_scope.

(** ** Regular expressions, as much of [re] as the code uses *)

Module Re.

(** One item of a pattern: [^], [$], one character of a class, or a class
    under [+]. *)
Inductive atom :=
| Bol
| Eol
| One (cls : ascii → bool)
| Many (cls : ascii → bool).

Definition pattern := list atom.

Definition in_range (lo hi c : ascii) : bool :=
  (nat_of_ascii lo <=? nat_of_ascii c)%nat && (nat_of_ascii c <=? nat_of_ascii hi)%nat.

(** [[A-Z]], [[a-z]] *)
Definition upper (c : ascii) : bool := in_range "A" "Z" c.
Definition lower (c : ascii) : bool := in_range "a" "z" c.

(** [\d] on the code points below 256, where the decimal digits of
    Unicode are 0-9 alone; [Unicode.digit] is the class on every code
    point. *)
Definition digit (c : ascii) : bool := in_range "0" "9" c.

(** The code points from 128 to 255 that [str.isalnum] accepts. *)
Definition latin1_alnum (c : ascii) : bool :=
  let n := nat_of_ascii c in
  (n =? 170)%nat || (n =? 178)%nat || (n =? 179)%nat || (n =? 181)%nat
  || (n =? 185)%nat || (n =? 186)%nat
  || ((188 <=? n)%nat && (n <=? 190)%nat)
  || ((192 <=? n)%nat && (n <=? 214)%nat)
  || ((216 <=? n)%nat && (n <=? 246)%nat)
  || ((248 <=? n)%nat && (n <=? 255)%nat).

(** [\w]: alphanumeric or underscore. *)
Definition word (c : ascii) : bool :=
  upper c || lower c || digit c || Ascii.eqb c "_" || latin1_alnum c.

(** [[\w\.-]] *)
Definition word_dot_dash (c : ascii) : bool :=
  word c || Ascii.eqb c "." || Ascii.eqb c "-".

Definition is_char (x c : ascii) : bool := Ascii.eqb c x.

Definition newline : ascii := ascii_of_nat 10.

(** [$] holds at the end of the string and just before a newline that is
    the last character. *)
Definition at_eol (s : string) : bool :=
  match s with
  | "" => true
  | String c "" => Ascii.eqb c newline
  | _ => false
  end.

(** [cls+] followed by the continuation [k]: greedy, with backtracking. *)
Fixpoint many (cls : ascii → bool) (k : nat → string → bool)
    (i : nat) (s : string) : bool :=
  match s with
  | "" => false
  | String c s' => cls c && (many cls k (S i) s' || k (S i) s')
  end.

(** Does the pattern match at index [i], where [s] is the rest of the
    subject from [i] on? *)
Fixpoint match_here (pat : pattern) (i : nat) (s : string) : bool :=
  match pat with
  | [] => true
  | Bol :: pat' => (i =? 0)%nat && match_here pat' i s
  | Eol :: pat' => at_eol s && match_here pat' i s
  | One cls :: pat' =>
      match s with
      | "" => false
      | String c s' => cls c && match_here pat' (S i) s'
      end
  | Many cls :: pat' => many cls (match_here pat') i s
  end.

Fixpoint search_from (pat : pattern) (i : nat) (s : string) : bool :=
  match_here pat i s ||
  match s with
  | "" => false
  | String _ s' => search_from pat (S i) s'
  end.

(** [bool(re.match(pat, s))] and [bool(re.search(pat, s))] *)
Definition re_match (pat : pattern) (s : string) : bool := match_here pat 0 s.
Definition re_search (pat : pattern) (s : string) : bool := search_from pat 0 s.

End Re.

(** ** Validation *)

(** [r"^[\w\.-]+@[\w\.-]+\.\w+$"] *)
Definition EMAIL_RE : Re.pattern :=
  [Re.Bol; Re.Many Re.word_dot_dash; Re.One (Re.is_char "@");
   Re.Many Re.word_dot_dash; Re.One (Re.is_char "."); Re.Many Re.word; Re.Eol].

Definition is_valid_email (email : string) : bool :=
  Re.re_match EMAIL_RE email.

(** The Python function returns the value of an [and] chain ([False], [None]
    or a match object); only its truth value is used.  This is the function
    on the passwords of the handlers, strings of code points below 256;
    [Unicode.is_strong_password] is the function on every [str], and agrees
    with it there ([is_strong_password_of_string]). *)
Definition is_strong_password (password : string) : bool :=
  (8 <=? String.length password)%nat
  && Re.re_search [Re.One Re.upper] password
  && Re.re_search [Re.One Re.lower] password
  && Re.re_search [Re.One Re.digit] password.

(** The string ["\n"]. *)
Definition nl : string := String Re.newline "".

(** ** Passwords as Python sees them: strings of code points *)

Module Unicode.

(** A [str] is a sequence of code points, each up to U+10FFFF. *)
Definition str := list N.

(** A string of code points below 256, as a [str]. *)
Definition of_string (s : string) : str := N_of_ascii <$> list_ascii_of_string s.

Definition in_range (lo hi c : N) : bool := (lo <=? c)%N && (c <=? hi)%N.

(** [[A-Z]] and [[a-z]]: the ASCII letters only. *)
Definition upper (c : N) : bool := in_range 65 90 c.
Definition lower (c : N) : bool := in_range 97 122 c.

(** The decimal digits of Unicode (category Nd) come in runs of ten, from
    a zero to a nine; these are the zeros, as in the tables of Unicode
    14.0 that CPython 3.11 carries: ASCII 0 first, then Arabic-Indic
    (U+0660), Extended Arabic-Indic, NKo, Devanagari and so on. *)
Definition decimal_zeros : list N :=
  [48; 1632; 1776; 1984; 2406; 2534; 2662; 2790; 2918; 3046; 3174; 3302;
   3430; 3558; 3664; 3792; 3872; 4160; 4240; 6112; 6160; 6470; 6608; 6784;
   6800; 6992; 7088; 7232; 7248; 42528; 43216; 43264; 43472; 43504; 43600;
   44016; 65296; 66720; 68912; 69734; 69872; 69942; 70096; 70384; 70736;
   70864; 71248; 71360; 71472; 71904; 72016; 72784; 73040; 73120; 92768;
   92864; 93008; 120782; 120792; 120802; 120812; 120822; 123200; 123632;
   125264; 130032]%N.

(** [\d] in a [str] pattern: any decimal digit of Unicode. *)
Definition digit (c : N) : bool :=
  existsb (λ zero, in_range zero (zero + 9) c) decimal_zeros.

(** [bool(re.search(pattern, s))] for a pattern that is one class. *)
Fixpoint search (cls : N → bool) (s : str) : bool :=
  match s with
  | [] => false
  | c :: s' => cls c || search cls s'
  end.

(** [is_strong_password] of [signup.py], on any [str]; [len] counts code
    points.  Only the truth value of the result is used. *)
Definition is_strong_password (password : str) : bool :=
  (8 <=? length password)%nat
  && search upper password
  && search lower password
  && search digit password.

End Unicode.

(** ** Stored data and requests *)

(** A value of the users mapping: the dict that [signup] writes. *)
Module User.
Record t := mk {
  id : string;
  name : string;
  email : string;
  password : string;
  verified : bool }.

Definition set_verified (b : bool) (u : t) : t :=
  mk (id u) (name u) (email u) (password u) b.
End User.

(** A value of the OTP mapping. *)
Module Otp.
Record t := mk {
  otp : string;
  timestamp : Q }.
End Otp.

Module UserCreate.
Record t := mk { name : string; email : string; password : string }.
End UserCreate.

Module OTPVerify.
Record t := mk { email : string; otp : string }.
End OTPVerify.

Module ResendRequest.
Record t := mk { email : string }.
End ResendRequest.

Module UserLogin.
Record t := mk { email : string; password : string }.
End UserLogin.

(** A Python [float] as a request can carry it: a finite value (an exact
    rational here), an infinity or a NaN. *)
Inductive pyfloat :=
| Finite (q : Q)
| Infinity (negative : bool)
| NaN.

(** [x <= y] and [x < y] on floats: false as soon as one side is a NaN. *)
Definition float_le (x y : pyfloat) : bool :=
  match x, y with
  | NaN, _ | _, NaN => false
  | Finite a, Finite b => Qle_bool a b
  | Infinity true, _ => true
  | _, Infinity false => true
  | _, _ => false
  end.

Definition float_lt (x y : pyfloat) : bool :=
  match x, y with
  | NaN, _ | _, NaN => false
  | Finite a, Finite b => negb (Qle_bool b a)
  | Infinity true, Infinity true => false
  | Infinity true, _ => true
  | Infinity false, _ => false
  | Finite _, Infinity negative => negb negative
  end.

Module ProductCreate.
Record t := mk {
  name : string;
  price : pyfloat;
  categories : string;
  page : string;
  image : string }.
End ProductCreate.

Module Product.
Record t := mk {
  id : string;
  name : string;
  price : pyfloat;
  categories : string;
  page : string;
  image : string }.
End Product.

(** ** The files on disk, and the loaders as they are written *)

Module Disk.

(** A value as [json.load] returns it. *)
#[warnings="-register-all"]
Inductive json :=
| Null
| Bool (b : bool)
| Int (z : Z)
| Float (x : pyfloat)
| Str (s : string)
| Array (items : list json)
| Object (members : gmap string json).

(** How opening, reading and parsing a file can end badly. *)
Inductive exn :=
| FileNotFoundError
| UnicodeDecodeError
| JSONDecodeError.

Inductive result :=
| Returns (v : json)
| Raises (e : exn).

(** A path, by what a reader meets there: no file; bytes that are not
    UTF-8; a text that is not a JSON document; a JSON document, whatever
    its shape. *)
Inductive file :=
| Absent
| NotUtf8
| NotJson
| Document (v : json).

(** [os.path.exists(path)] *)
Definition path_exists (f : file) : bool :=
  match f with
  | Absent => false
  | _ => true
  end.

(** [with open(path, "r", encoding="utf-8") as file: json.load(file)] *)
Definition json_load (f : file) : result :=
  match f with
  | Absent => Raises FileNotFoundError
  | NotUtf8 => Raises UnicodeDecodeError
  | NotJson => Raises JSONDecodeError
  | Document v => Returns v
  end.

(** [load_data] of [signup.py]: the one exception caught is
    [json.JSONDecodeError]; what [json.load] returns is returned as it
    is. *)
Definition load_data (f : file) : result :=
  if negb (path_exists f) then Returns (Object ∅)
  else
    match json_load f with
    | Raises JSONDecodeError => Returns (Object ∅)
    | r => r
    end.

(** [load_products] of [product.py] *)
Definition load_products (f : file) : result :=
  if negb (path_exists f) then Returns (Array [])
  else
    match json_load f with
    | Raises JSONDecodeError => Returns (Array [])
    | r => r
    end.

End Disk.

(** ** The world the handlers run in *)

(** The files of the handlers.  Only [save_data] and [save_products] write
    them, so the handlers are modelled on the files that can come of that:
    no file yet, a text that is not JSON (a write cut short), or a document
    [doc] of the store's shape.  [on_disk] places such a file among all the
    files of [Disk]; bytes that are not UTF-8 and documents of another shape
    are left to [Disk.load_data] and [Disk.load_products]. *)
Inductive file (A : Type) :=
| Missing
| Malformed
| Json (doc : A).
Arguments Missing {A}.
Arguments Malformed {A}.
Arguments Json {A} doc.

Definition on_disk {A} (encode : A → Disk.json) (f : file A) : Disk.file :=
  match f with
  | Missing => Disk.Absent
  | Malformed => Disk.NotJson
  | Json doc => Disk.Document (encode doc)
  end.

(** A supply of values from outside: the [n]-th call gets [feed n]. *)
Record source (A : Type) := Source { feed : nat → A; taken : nat }.
Arguments Source {A} feed taken.
Arguments feed {A} s n.
Arguments taken {A} s.

Definition draw {A} (s : source A) : A * source A :=
  (feed s (taken s), Source (feed s) (S (taken s))).

Record world := World {
  USERS_FILE : file (gmap string User.t);
  OTPS_FILE : file (gmap string Otp.t);
  PRODUCTS_FILE : file (list Product.t);
  clock : source Q;
  rng : source nat;
  uuids : source string;
  console : list string }.

Definition set_USERS_FILE (f : file (gmap string User.t)) (w : world) : world :=
  World f (OTPS_FILE w) (PRODUCTS_FILE w) (clock w) (rng w) (uuids w) (console w).
Definition set_OTPS_FILE (f : file (gmap string Otp.t)) (w : world) : world :=
  World (USERS_FILE w) f (PRODUCTS_FILE w) (clock w) (rng w) (uuids w) (console w).
Definition set_PRODUCTS_FILE (f : file (list Product.t)) (w : world) : world :=
  World (USERS_FILE w) (OTPS_FILE w) f (clock w) (rng w) (uuids w) (console w).
Definition set_clock (c : source Q) (w : world) : world :=
  World (USERS_FILE w) (OTPS_FILE w) (PRODUCTS_FILE w) c (rng w) (uuids w) (console w).
Definition set_rng (r : source nat) (w : world) : world :=
  World (USERS_FILE w) (OTPS_FILE w) (PRODUCTS_FILE w) (clock w) r (uuids w) (console w).
Definition set_uuids (u : source string) (w : world) : world :=
  World (USERS_FILE w) (OTPS_FILE w) (PRODUCTS_FILE w) (clock w) (rng w) u (console w).
Definition set_console (c : list string) (w : world) : world :=
  World (USERS_FILE w) (OTPS_FILE w) (PRODUCTS_FILE w) (clock w) (rng w) (uuids w) c.

(** ** Handlers as state-and-exception computations *)

Record HTTPException := HTTPError { status_code : Z; detail : string }.

Inductive outcome (A : Type) :=
| Return (a : A)
| Raise (e : HTTPException).
Arguments Return {A} a.
Arguments Raise {A} e.

(** What a computation has done to the world stays done when it raises. *)
Definition M (A : Type) : Type := world → outcome A * world.

#[export] Instance M_ret : MRet M := λ A a w, (Return a, w).

#[export] Instance M_bind : MBind M := λ A B k m w,
  match m w with
  | (Return a, w') => k a w'
  | (Raise e, w') => (Raise e, w')
  end.

(** [raise HTTPException(status_code=status, detail=msg)] *)
Definition raise {A} (status : Z) (msg : string) : M A :=
  λ w, (Raise (HTTPError status msg), w).

Definition get {A} (proj : world → A) : M A := λ w, (Return (proj w), w).
Definition modify (f : world → world) : M unit := λ w, (Return tt, f w).

(** ** The record store *)

(** [load_data] and [load_products] on the files of the handlers; they are
    [Disk.load_data] and [Disk.load_products] there
    ([load_data_on_disk], [load_products_on_disk]). *)
Definition load_data {A} (f : file (gmap string A)) : gmap string A :=
  match f with
  | Missing => ∅
  | Malformed => ∅
  | Json doc => doc
  end.

Definition save_data {A} (data : gmap string A) : file (gmap string A) :=
  Json data.

Definition load_products (f : file (list Product.t)) : list Product.t :=
  match f with
  | Missing => []
  | Malformed => []
  | Json doc => doc
  end.

Definition save_products (products : list Product.t) : file (list Product.t) :=
  Json products.

(** ** Effects from the standard library *)

(** [time.time()] *)
Definition time_time : M Q :=
  λ w, let (t, c) := draw (clock w) in (Return t, set_clock c w).

(** [str(uuid.uuid4())] *)
Definition uuid4 : M string :=
  λ w, let (u, s) := draw (uuids w) in (Return u, set_uuids s w).

(** [print(line)] *)
Definition print (line : string) : M unit :=
  modify (λ w, set_console (console w ++ [line])%list w).

(** One pick of [random.choices]: the character at an index below the
    population's length, here the draw [n] reduced modulo that length. *)
Definition pick (population : string) (n : nat) : ascii :=
  default "0"%char (String.get (n mod String.length population) population).

Definition random_choice (population : string) : M ascii :=
  λ w, let (n, r) := draw (rng w) in (Return (pick population n), set_rng r w).

Fixpoint random_choices (population : string) (k : nat) : M string :=
  match k with
  | O => mret ""
  | S k' =>
      c ← random_choice population;
      rest ← random_choices population k';
      mret (String c rest)
  end.

Definition generate_otp : M string := random_choices "0123456789" 6.

(** [int(x)] on a float: the fractional part is dropped, towards zero. *)
Definition py_int (x : Q) : Z := Z.quot (Qnum x) (Zpos (Qden x)).

(** ** signup.py: the account lifecycle *)

Definition signup (user : UserCreate.t) : M string :=
  users ← get (λ w, load_data (USERS_FILE w));
  otps ← get (λ w, load_data (OTPS_FILE w));
  if decide (is_Some (users !! UserCreate.email user)) then
    raise 409 "User already exists."
  else if negb (is_valid_email (UserCreate.email user)) then
    raise 400 "Invalid email."
  else if negb (is_strong_password (UserCreate.password user)) then
    raise 400 "Weak password."
  else
    uid ← uuid4;
    let users := <[UserCreate.email user :=
                     User.mk uid (UserCreate.name user) (UserCreate.email user)
                             (UserCreate.password user) false]> users in
    modify (set_USERS_FILE (save_data users));;
    otp ← generate_otp;
    now ← time_time;
    let otps := <[UserCreate.email user := Otp.mk otp now]> otps in
    modify (set_OTPS_FILE (save_data otps));;
    print ("[OTP] Your OTP for " ++ UserCreate.email user ++ " is: " ++ otp);;
    mret "User registered. OTP sent to console.".

Definition verify_otp (data : OTPVerify.t) : M string :=
  otps ← get (λ w, load_data (OTPS_FILE w));
  match otps !! OTPVerify.email data with
  | None => raise 404 "No OTP found for this email."
  | Some entry =>
      if negb (String.eqb (Otp.otp entry) (OTPVerify.otp data)) then
        raise 400 "Invalid OTP."
      else
        let otps := delete (OTPVerify.email data) otps in
        modify (set_OTPS_FILE (save_data otps));;
        users ← get (λ w, load_data (USERS_FILE w));
        match users !! OTPVerify.email data with
        | Some u =>
            let users := <[OTPVerify.email data := User.set_verified true u]> users in
            modify (set_USERS_FILE (save_data users))
        | None => mret tt
        end;;
        mret "OTP verified successfully. User is now verified."
  end.

(** The number of seconds that the refusal of [resend_otp] reports. *)
Definition remaining_seconds (elapsed : Q) : Z := py_int (300 - elapsed).

Definition wait_message (remaining : Z) : string :=
  "Wait " ++ pretty remaining ++ " seconds before resending OTP.".

Definition resend_otp (data : ResendRequest.t) : M string :=
  otps ← get (λ w, load_data (OTPS_FILE w));
  match otps !! ResendRequest.email data with
  | None => raise 404 "No signup found for this email."
  | Some entry =>
      now ← time_time;
      let elapsed := (now - Otp.timestamp entry)%Q in
      if Qlt_le_dec elapsed 300 then
        let remaining := remaining_seconds elapsed in
        raise 403 (wait_message remaining)
      else
        otp ← generate_otp;
        now' ← time_time;
        let otps := <[ResendRequest.email data := Otp.mk otp now']> otps in
        modify (set_OTPS_FILE (save_data otps));;
        print ("[OTP] Resent OTP for " ++ ResendRequest.email data ++ ": " ++ otp);;
        mret "OTP resent. Check console."
  end.

Definition login (data : UserLogin.t) : M string :=
  users ← get (λ w, load_data (USERS_FILE w));
  match users !! UserLogin.email data with
  | None => raise 404 "user not found."
  | Some user =>
      if negb (User.verified user) then
        raise 404 "Email not verified. Please verify OTP first."
      else if negb (String.eqb (User.password user) (UserLogin.password data)) then
        raise 404 "incorrect password"
      else
        mret ("Login successful. welcome " ++ User.name user ++ "!")
  end.

(** [list(users.values())].  A [gmap] does not keep the insertion order of
    a [dict]: the list has the stored values, in an order of its own. *)
Definition values {A} (m : gmap string A) : list A := (map_to_list m).*2.

Definition list_users : M (list User.t) :=
  users ← get (λ w, load_data (USERS_FILE w));
  mret (values users).

Definition get_verified_users : M (list User.t) :=
  users ← get (λ w, load_data (USERS_FILE w));
  mret (List.filter User.verified (values users)).

(** ** product.py *)

Definition get_products : M (list Product.t) :=
  get (λ w, load_products (PRODUCTS_FILE w)).

Definition add_product (product : ProductCreate.t) : M Product.t :=
  if float_le (ProductCreate.price product) (Finite 0) then
    raise 400 "price must be greater than 0"
  else
    products ← get (λ w, load_products (PRODUCTS_FILE w));
    pid ← uuid4;
    let new_product :=
      Product.mk pid (ProductCreate.name product) (ProductCreate.price product)
                 (ProductCreate.categories product) (ProductCreate.page product)
                 (ProductCreate.image product) in
    let products := (products ++ [new_product])%list in
    modify (set_PRODUCTS_FILE (save_products products));;
    mret new_product.

(** The three stores, as the next request will find them. *)
Definition stores (w : world) :=
  (USERS_FILE w, OTPS_FILE w, PRODUCTS_FILE w).

(** The requests of the two applications that [main.py] mounts. *)
Inductive request :=
| Signup (user : UserCreate.t)
| VerifyOtp (data : OTPVerify.t)
| ResendOtp (data : ResendRequest.t)
| Login (data : UserLogin.t)
| AddProduct (product : ProductCreate.t).

Definition forget {A} (r : outcome A * world) : option HTTPException * world :=
  match r with
  | (Return _, w) => (None, w)
  | (Raise e, w) => (Some e, w)
  end.

(** The error a request ends with, if any, and the world it leaves. *)
Definition serve (r : request) (w : world) : option HTTPException * world :=
  match r with
  | Signup user => forget (signup user w)
  | VerifyOtp data => forget (verify_otp data w)
  | ResendOtp data => forget (resend_otp data w)
  | Login data => forget (login data w)
  | AddProduct product => forget (add_product product w)
  end.

(** The world after a history of requests, served one after the other. *)
Fixpoint serve_all (rs : list request) (w : world) : world :=
  match rs with
  | [] => w
  | r :: rs' => serve_all rs' (snd (serve r w))
  end.

(** ** What the generator is going to return *)

Definition advance {A} (k : nat) (s : source A) : source A :=
  Source (feed s) (k + taken s).

(** The characters that [k] picks yield, read off the random source. *)
Fixpoint picks (population : string) (r : source nat) (k : nat) : string :=
  match k with
  | O => ""
  | S k' => String (pick population (feed r (taken r)))
                   (picks population (advance 1 r) k')
  end.

Definition next_otp (r : source nat) : string := picks "0123456789" r 6.

(** ** Vocabulary of the statements *)

(** The path has no document to give: no file, or a text that is not JSON. *)
Definition no_document {A} (f : file A) : Prop :=
  match f with
  | Json _ => False
  | _ => True
  end.

Definition uppercase_letters : string := "ABCDEFGHIJKLMNOPQRSTUVWXYZ".
Definition lowercase_letters : string := "abcdefghijklmnopqrstuvwxyz".
Definition decimal_digits : string := "0123456789".

(** [s] has a character that is one of [alphabet]. *)
Definition contains_one_of (alphabet s : string) : Prop :=
  ∃ c, c ∈ list_ascii_of_string s ∧ c ∈ list_ascii_of_string alphabet.

(** [s] is one or more characters of the class. *)
Definition over (cls : ascii → bool) (s : string) : Prop :=
  s ≠ "" ∧ ∀ c, c ∈ list_ascii_of_string s → cls c = true.

(** local-part@domain.tld: word characters, dots and hyphens before and
    after the [@], then a last dot and word characters. *)
Definition email_shape (s : string) : Prop :=
  ∃ local domain tld,
    s = local ++ "@" ++ domain ++ "." ++ tld
    ∧ over Re.word_dot_dash local
    ∧ over Re.word_dot_dash domain
    ∧ over Re.word tld.

Fixpoint last_char (s : string) : option ascii :=
  match s with
  | "" => None
  | String c "" => Some c
  | String _ s' => last_char s'
  end.

(** ** The state of the stores *)

Definition users_of (w : world) : gmap string User.t := load_data (USERS_FILE w).
Definition otps_of (w : world) : gmap string Otp.t := load_data (OTPS_FILE w).
Definition products_of (w : world) : list Product.t := load_products (PRODUCTS_FILE w).

(** Six characters, each a decimal digit. *)
Definition six_digits (s : string) : Prop :=
  String.length s = 6%nat
  ∧ ∀ c, c ∈ list_ascii_of_string s → c ∈ list_ascii_of_string decimal_digits.

(** The account of the specification's state machine: an email has a
    pending OTP exactly when it has an account that is not verified. *)
Definition lifecycle_consistent (w : world) : Prop :=
  ∀ k, is_Some (otps_of w !! k)
       ↔ ∃ u, users_of w !! k = Some u ∧ User.verified u = false.

(** What [signup] and [generate_otp] let into the stores. *)
Definition well_formed (w : world) : Prop :=
  (∀ k u, users_of w !! k = Some u →
          User.email u = k ∧ is_valid_email k = true
          ∧ is_strong_password (User.password u) = true)
  ∧ (∀ k e, otps_of w !! k = Some e → six_digits (Otp.otp e)).

(** Every product id is a value that the uuid source has already given. *)
Definition ids_drawn (w : world) : Prop :=
  ∀ p, p ∈ products_of w →
       ∃ i, (i < taken (uuids w))%nat ∧ Product.id p = feed (uuids w) i.

Definition unique_ids (w : world) : Prop :=
  NoDup (Product.id <$> products_of w) ∧ ids_drawn w.

(** No two accounts share an id, and every account id is a value that the
    uuid source has already given. *)
Definition unique_account_ids (w : world) : Prop :=
  (∀ k1 k2 u1 u2, users_of w !! k1 = Some u1 → users_of w !! k2 = Some u2 →
                  User.id u1 = User.id u2 → k1 = k2)
  ∧ ∀ k u, users_of w !! k = Some u →
           ∃ i, (i < taken (uuids w))%nat ∧ User.id u = feed (uuids w) i.

(** The request that a stored product was made from. *)
Definition submitted (p : Product.t) : ProductCreate.t :=
  ProductCreate.mk (Product.name p) (Product.price p) (Product.categories p)
                   (Product.page p) (Product.image p).

(** The number of occurrences of a character. *)
Fixpoint count_char (x : ascii) (s : string) : nat :=
  match s with
  | "" => 0
  | String c s' => (if Ascii.eqb c x then 1 else 0) + count_char x s'
  end.

(** ** Worlds to run examples in *)

Definition digits_of_pi : source nat :=
  Source (λ n, nth n [3; 1; 4; 1; 5; 9; 2; 6; 5; 3; 5; 8]%nat 7%nat) 0.

Definition fresh_install (readings : list Q) : world :=
  World Missing Missing Missing
        (Source (λ n, nth n readings 1000%Q) 0)
        digits_of_pi
        (Source (λ n, "uuid-" ++ pretty n) 0)
        [].

Definition registered (u : User.t) : world :=
  World (Json {[User.email u := u]}) Missing Missing
        (Source (λ _, 1000%Q) 0) digits_of_pi (Source pretty 0) [].

Definition pending (u : User.t) (code : string) (issued : Q) (now : list Q) : world :=
  World (Json {[User.email u := u]}) (Json {[User.email u := Otp.mk code issued]})
        Missing (Source (λ n, nth n now 1000%Q) 0) digits_of_pi (Source pretty 0) [].

Definition bob (verified : bool) : User.t :=
  User.mk "u0" "Bob" "bob@example.com" "Abcdefg1" verified.

Definition rose (price : Q) : ProductCreate.t :=
  ProductCreate.mk "Rose" (Finite price) "flowers" "home" "rose.png".

(** A request whose price is a NaN. *)
Definition rose_nan : ProductCreate.t :=
  ProductCreate.mk "Rose" NaN "flowers" "home" "rose.png".

Definition carol : UserCreate.t :=
  UserCreate.mk "Carol" "carol@example.com" "Sunflower7".

(** A pending OTP with no account, as after the loss of the users file. *)
Definition orphan_otp : world :=
  set_OTPS_FILE (Json {["ghost@example.com" := Otp.mk "161803" 0]}) (fresh_install []).

(** * Properties *)

Ltac step := unfold mbind, M_bind, mret, M_ret, get, modify, raise; cbn.

Arguments generate_otp : simpl never.
Arguments is_valid_email : simpl never.
Arguments is_strong_password : simpl never.
Arguments remaining_seconds : simpl never.
Arguments wait_message : simpl never.

(** ** The scenario of the specification, run on the model *)

Example alice_scenario :
  let w0 := fresh_install [10%Q] in
  let '(r1, w1) := signup (UserCreate.mk "Alice" "alice@example.com" "Abcdefg1") w0 in
  let '(r2, w2) := verify_otp (OTPVerify.mk "alice@example.com" "000000") w1 in
  let '(r3, w3) := verify_otp (OTPVerify.mk "alice@example.com" "314159") w2 in
  let '(r4, w4) := login (UserLogin.mk "alice@example.com" "Abcdefg1") w3 in
  r1 = Return "User registered. OTP sent to console."
  ∧ console w1 = ["[OTP] Your OTP for alice@example.com is: 314159"]
  ∧ r2 = Raise (HTTPError 400 "Invalid OTP.")
  ∧ r3 = Return "OTP verified successfully. User is now verified."
  ∧ r4 = Return "Login successful. welcome Alice!"
  ∧ stores w4 = (Json {["alice@example.com" :=
                          User.mk "uuid-0" "Alice" "alice@example.com" "Abcdefg1" true]},
                 Json ∅, Missing).
Proof. vm_compute. repeat split. Qed.

(** ** Signup *)

(** C5: a signup whose email is already a key of the users store fails with
    409 Conflict, whatever the name, the shape of the email and the
    password are: the membership test comes before both validations.  The
    world is left as it was. *)
Theorem signup_duplicate_conflict (user : UserCreate.t) (w : world) :
  is_Some (load_data (USERS_FILE w) !! UserCreate.email user) →
  signup user w = (Raise (HTTPError 409 "User already exists."), w).
Proof.
  intros Hin. unfold signup. step.
  destruct (decide _) as [_|Hno]; [reflexivity | contradiction].
Qed.

Lemma signup_duplicate_conflict_witness :
  let w := registered (bob true) in
  let eve := UserCreate.mk "Eve" "bob@example.com" "weak" in
  is_strong_password "weak" = false
  ∧ signup eve w = (Raise (HTTPError 409 "User already exists."), w).
Proof.
  intros w eve. split; [reflexivity|].
  apply (signup_duplicate_conflict eve w).
  exists (bob true). reflexivity.
Defined.

(** ** The generator and the clock, step by step *)

Lemma random_choices_run (population : string) (k : nat) (w : world) :
  random_choices population k w
  = (Return (picks population (rng w) k), set_rng (advance k (rng w)) w).
Proof.
  revert w. induction k as [|k IH]; intros w.
  - destruct w as [u o p c [f n] i out]. reflexivity.
  - simpl. step. rewrite IH. simpl.
    unfold set_rng, advance. simpl. repeat f_equal. lia.
Qed.

Lemma generate_otp_run (w : world) :
  generate_otp w = (Return (next_otp (rng w)), set_rng (advance 6 (rng w)) w).
Proof. apply random_choices_run. Qed.

Arguments next_otp : simpl never.

(** ** No failure touches a store *)

(** C10: when [signup], [verify_otp], [resend_otp], [login] or
    [add_product] ends with an [HTTPException], the users file, the OTP file
    and the products file are what they were before the call: every
    [raise] of a handler comes before its first save. *)
Theorem failure_leaves_stores (r : request) (w w' : world) (e : HTTPException) :
  serve r w = (Some e, w') → stores w' = stores w.
Proof.
  destruct r as [user|data|data|data|product]; cbn.
  - unfold signup. step.
    destruct (decide _); [intros [= _ <-]; reflexivity|].
    destruct (is_valid_email _); cbn; [|intros [= _ <-]; reflexivity].
    destruct (is_strong_password _); cbn; [|intros [= _ <-]; reflexivity].
    rewrite generate_otp_run. discriminate.
  - unfold verify_otp. step.
    destruct (_ !! _) as [entry|]; [|intros [= _ <-]; reflexivity].
    destruct (String.eqb _ _); cbn; [|intros [= _ <-]; reflexivity].
    destruct (_ !! _); cbn; discriminate.
  - unfold resend_otp. step.
    destruct (_ !! _) as [entry|]; [|intros [= _ <-]; reflexivity].
    cbn. destruct (Qlt_le_dec _ _); cbn; [intros [= _ <-]; reflexivity|].
    rewrite generate_otp_run. discriminate.
  - unfold login. step.
    destruct (_ !! _) as [u|]; [|intros [= _ <-]; reflexivity].
    destruct (User.verified u); cbn; [|intros [= _ <-]; reflexivity].
    destruct (String.eqb _ _); cbn; [discriminate|intros [= _ <-]; reflexivity].
  - unfold add_product. step.
    destruct (float_le _ _); [intros [= _ <-]; reflexivity|].
    cbn. discriminate.
Qed.

Lemma failure_leaves_stores_witness :
  let w := registered (User.mk "u0" "Bob" "bob@example.com" "Abcdefg1" false) in
  let r := Login (UserLogin.mk "bob@example.com" "Abcdefg1") in
  let e := HTTPError 404 "Email not verified. Please verify OTP first." in
  serve r w = (Some e, w) ∧ stores w = stores w.
Proof.
  intros w r e.
  assert (H : serve r w = (Some e, w)) by reflexivity.
  split; [exact H | exact (failure_leaves_stores r w w e H)].
Defined.

(** ** Verification of a code *)

(** C3: when a pending OTP is stored for the email and the supplied code is
    the stored one, [verify_otp] succeeds; the entry of that email is gone
    from the OTP store and nothing else in it changed; an account under
    that email is still there with [verified] now true and its id, name,
    email and password as they were, the other accounts are as before; and
    the same request, repeated at once, fails with 404 "No OTP found". *)
Theorem verify_otp_consumes (data : OTPVerify.t) (w : world) (entry : Otp.t) :
  load_data (OTPS_FILE w) !! OTPVerify.email data = Some entry →
  Otp.otp entry = OTPVerify.otp data →
  ∃ w',
    verify_otp data w
      = (Return "OTP verified successfully. User is now verified.", w')
    ∧ load_data (OTPS_FILE w')
      = delete (OTPVerify.email data) (load_data (OTPS_FILE w))
    ∧ load_data (OTPS_FILE w') !! OTPVerify.email data = None
    ∧ (∀ u, load_data (USERS_FILE w) !! OTPVerify.email data = Some u →
            load_data (USERS_FILE w') !! OTPVerify.email data
            = Some (User.set_verified true u))
    ∧ (∀ u, load_data (USERS_FILE w) !! OTPVerify.email data = Some u →
            ∃ u', load_data (USERS_FILE w') !! OTPVerify.email data = Some u'
                  ∧ User.verified u' = true
                  ∧ User.id u' = User.id u ∧ User.name u' = User.name u
                  ∧ User.email u' = User.email u
                  ∧ User.password u' = User.password u)
    ∧ (∀ k, k ≠ OTPVerify.email data →
            load_data (USERS_FILE w') !! k = load_data (USERS_FILE w) !! k)
    ∧ verify_otp data w'
      = (Raise (HTTPError 404 "No OTP found for this email."), w').
Proof.
  intros Hotp Hcode. unfold verify_otp. step.
  rewrite Hotp, Hcode, String.eqb_refl. cbn.
  destruct (load_data (USERS_FILE w) !! OTPVerify.email data) as [u|] eqn:Hu; cbn.
  - eexists. split; [reflexivity|]. cbn.
    rewrite lookup_delete_eq. cbn.
    split_and!; try reflexivity.
    + intros u' [= <-]. apply lookup_insert_eq.
    + intros u' [= <-]. exists (User.set_verified true u).
      split; [apply lookup_insert_eq|]. split_and!; reflexivity.
    + intros k Hk. apply lookup_insert_ne. congruence.
  - eexists. split; [reflexivity|]. cbn.
    rewrite lookup_delete_eq. cbn.
    split_and!; try reflexivity; discriminate.
Qed.

Lemma verify_otp_consumes_witness :
  let w := pending (bob false) "271828" 0 [] in
  let data := OTPVerify.mk "bob@example.com" "271828" in
  ∃ w',
    verify_otp data w
      = (Return "OTP verified successfully. User is now verified.", w')
    ∧ load_data (OTPS_FILE w') = delete "bob@example.com" (load_data (OTPS_FILE w))
    ∧ load_data (OTPS_FILE w') !! "bob@example.com" = None
    ∧ load_data (USERS_FILE w) !! "bob@example.com"
      = Some (User.mk "u0" "Bob" "bob@example.com" "Abcdefg1" false)
    ∧ load_data (USERS_FILE w') !! "bob@example.com"
      = Some (User.mk "u0" "Bob" "bob@example.com" "Abcdefg1" true)
    ∧ (∃ u', load_data (USERS_FILE w') !! "bob@example.com" = Some u'
             ∧ User.verified u' = true)
    ∧ (∀ k, k ≠ "bob@example.com" →
            load_data (USERS_FILE w') !! k = load_data (USERS_FILE w) !! k)
    ∧ verify_otp data w'
      = (Raise (HTTPError 404 "No OTP found for this email."), w').
Proof.
  intros w data.
  destruct (verify_otp_consumes data w (Otp.mk "271828" 0) eq_refl eq_refl)
    as (w' & Hrun & Hotps & Hgone & Hset & Hflag & Hothers & Hagain).
  exists w'. split_and!; try assumption.
  - reflexivity.
  - exact (Hset (bob false) eq_refl).
  - destruct (Hflag (bob false) eq_refl) as (u' & Hu' & Hv & _). eauto.
Defined.

(** ** Login *)

Lemma login_run (data : UserLogin.t) (w : world) :
  login data w =
  (match load_data (USERS_FILE w) !! UserLogin.email data with
   | None => Raise (HTTPError 404 "user not found.")
   | Some user =>
       if User.verified user then
         if String.eqb (User.password user) (UserLogin.password data) then
           Return ("Login successful. welcome " ++ User.name user ++ "!")
         else Raise (HTTPError 404 "incorrect password")
       else Raise (HTTPError 404 "Email not verified. Please verify OTP first.")
   end, w).
Proof.
  unfold login. step.
  destruct (_ !! _) as [u|]; [|reflexivity].
  destruct (User.verified u); cbn; [|reflexivity].
  destruct (String.eqb _ _); reflexivity.
Qed.

(** C2, as the code has it: a login that fails, fails with status 404 in
    each of its three cases, which the detail message alone tells apart:
    "user not found." for an unknown email, "Email not verified. Please
    verify OTP first." for an account that is not verified, whatever the
    password, and "incorrect password" for a verified account whose stored
    password is not the supplied string.  It succeeds exactly when the
    account exists, is verified and the passwords are the same string.  The
    world is never changed. *)
Theorem login_outcome (data : UserLogin.t) (w : world) :
  let users := load_data (USERS_FILE w) in
  let email := UserLogin.email data in
  (∀ e w', login data w = (Raise e, w') → status_code e = 404%Z)
  ∧ snd (login data w) = w
  ∧ (users !! email = None →
     login data w = (Raise (HTTPError 404 "user not found."), w))
  ∧ (∀ u, users !! email = Some u → User.verified u = false →
     login data w
     = (Raise (HTTPError 404 "Email not verified. Please verify OTP first."), w))
  ∧ (∀ u, users !! email = Some u → User.verified u = true →
     User.password u ≠ UserLogin.password data →
     login data w = (Raise (HTTPError 404 "incorrect password"), w))
  ∧ ((∃ msg w', login data w = (Return msg, w'))
     ↔ ∃ u, users !! email = Some u ∧ User.verified u = true
            ∧ User.password u = UserLogin.password data).
Proof.
  intros users email. subst users email. rewrite login_run.
  destruct (load_data (USERS_FILE w) !! UserLogin.email data) as [u|] eqn:Hu.
  - destruct (User.verified u) eqn:Hv;
      [destruct (String.eqb_spec (User.password u) (UserLogin.password data)) as [Hp|Hp]|];
      split_and!; try discriminate; try reflexivity;
      try (intros e w' [= <- _]; reflexivity);
      try (intros u' [= <-]; congruence).
    + split; eauto.
    + split; [intros (msg & w' & [=]) | intros (u' & [= <-] & _ & Hp'); contradiction].
    + split; [intros (msg & w' & [=]) | intros (u' & [= <-] & Hv' & _); congruence].
  - split_and!; try discriminate; try reflexivity.
    + intros e w' [= <- _]. reflexivity.
    + split; [intros (msg & w' & [=]) | intros (u' & [=] & _)].
Qed.

Lemma login_outcome_witness :
  ∃ msg w',
    login (UserLogin.mk "bob@example.com" "Abcdefg1") (registered (bob true))
    = (Return msg, w').
Proof.
  destruct (login_outcome (UserLogin.mk "bob@example.com" "Abcdefg1")
              (registered (bob true))) as (_ & _ & _ & _ & _ & Hok).
  apply Hok. exists (bob true). repeat split.
Defined.

(** C2, as stated, fails: the correct password on an account that is not
    verified, and a wrong password on a verified account, are refused with
    the very status of an unknown email, 404; no login failure carries
    403. *)
Lemma login_refusals_share_not_found_status :
  ∃ e_unverified e_wrong_password e_unknown,
    login (UserLogin.mk "bob@example.com" "Abcdefg1") (registered (bob false))
    = (Raise e_unverified, registered (bob false))
    ∧ login (UserLogin.mk "bob@example.com" "abcdefg1") (registered (bob true))
      = (Raise e_wrong_password, registered (bob true))
    ∧ login (UserLogin.mk "nobody@example.com" "Abcdefg1") (registered (bob true))
      = (Raise e_unknown, registered (bob true))
    ∧ status_code e_unverified = status_code e_unknown
    ∧ status_code e_wrong_password = status_code e_unknown
    ∧ status_code e_unknown = 404%Z.
Proof.
  exists (HTTPError 404 "Email not verified. Please verify OTP first."),
         (HTTPError 404 "incorrect password"),
         (HTTPError 404 "user not found.").
  repeat split.
Qed.

(** ** The record store *)

(** On the files of the handlers, the loaders of the handlers are the
    loaders of [Disk]. *)
Lemma load_data_on_disk {A} (encode : A → Disk.json) (f : file (gmap string A)) :
  Disk.load_data (on_disk (λ m, Disk.Object (encode <$> m)) f)
  = Disk.Returns (Disk.Object (encode <$> load_data f)).
Proof. destruct f; cbn; rewrite ?fmap_empty; reflexivity. Qed.

Lemma load_products_on_disk (encode : Product.t → Disk.json)
    (f : file (list Product.t)) :
  Disk.load_products (on_disk (λ l, Disk.Array (encode <$> l)) f)
  = Disk.Returns (Disk.Array (encode <$> load_products f)).
Proof. destruct f; reflexivity. Qed.




(** ** Products *)

(** C9: [add_product] fails exactly when the price is at most 0, in
    Python's comparison of floats ([price <= 0], false for a NaN), and then
    with status 400 and an untouched world; otherwise it returns a product
    that carries the next uuid and the submitted fields, and the products
    store is the former list with that product added at its end; the users
    and OTP files are not written. *)
Theorem add_product_spec (product : ProductCreate.t) (w : world) :
  ((∃ e w', add_product product w = (Raise e, w'))
   ↔ float_le (ProductCreate.price product) (Finite 0) = true)
  ∧ (∀ e w', add_product product w = (Raise e, w') →
       e = HTTPError 400 "price must be greater than 0" ∧ w' = w)
  ∧ (∀ p w', add_product product w = (Return p, w') →
       p = Product.mk (feed (uuids w) (taken (uuids w)))
             (ProductCreate.name product) (ProductCreate.price product)
             (ProductCreate.categories product) (ProductCreate.page product)
             (ProductCreate.image product)
       ∧ load_products (PRODUCTS_FILE w')
         = (load_products (PRODUCTS_FILE w) ++ [p])%list
       ∧ USERS_FILE w' = USERS_FILE w
       ∧ OTPS_FILE w' = OTPS_FILE w).
Proof.
  unfold add_product.
  destruct (float_le (ProductCreate.price product) (Finite 0)) eqn:Hle; step.
  - split_and!.
    + split; eauto.
    + intros e w' [= <- <-]. auto.
    + discriminate.
  - split_and!.
    + split; [intros (e & w' & [=]) | discriminate].
    + discriminate.
    + intros p w' [= <- <-]. cbn. auto.
Qed.

Lemma add_product_spec_witness :
  (∃ e w', add_product (rose 0) (fresh_install []) = (Raise e, w'))
  ∧ ∃ p w', add_product (rose 9.99) (fresh_install []) = (Return p, w')
            ∧ load_products (PRODUCTS_FILE w') = [p]
            ∧ Product.id p = "uuid-0".
Proof.
  split.
  - apply (proj1 (add_product_spec (rose 0) (fresh_install []))).
    reflexivity.
  - pose proof (add_product_spec (rose 9.99) (fresh_install [])) as (_ & _ & Hok).
    destruct (add_product (rose 9.99) (fresh_install [])) as [[p|e] w'] eqn:E.
    + exists p, w'. destruct (Hok p w' eq_refl) as (Hp & Hstore & _).
      split; [reflexivity|]. split; [exact Hstore | rewrite Hp; reflexivity].
    + vm_compute in E. discriminate.
Defined.

(** ** Resending a code *)

Lemma py_int_floor (x : Q) : (0 <= x)%Q → py_int x = Qfloor x.
Proof.
  destruct x as [n d]. unfold Qle, py_int, Qfloor. cbn. intros H.
  apply Z.quot_div_nonneg; lia.
Qed.

Lemma Qfloor_zero_iff (x : Q) : Qfloor x = 0%Z ↔ (0 <= x ∧ x < 1)%Q.
Proof.
  pose proof (Qfloor_le x) as Hlo. pose proof (Qlt_floor x) as Hhi.
  split.
  - intros H. rewrite H in Hlo, Hhi. cbn in Hhi. split; [exact Hlo | exact Hhi].
  - intros [H0 H1].
    assert (Hlt : (inject_Z (Qfloor x) < inject_Z 1)%Q)
      by (apply Qle_lt_trans with x; assumption).
    assert (Hgt : (inject_Z 0 < inject_Z (Qfloor x + 1))%Q)
      by (apply Qle_lt_trans with x; assumption).
    rewrite <- Zlt_Qlt in Hlt, Hgt. lia.
Qed.

(** C1, as the code has it: when a pending OTP exists and less than 300
    seconds have passed since its timestamp, [resend_otp] fails with status
    403 and the message "Wait N seconds before resending OTP.", where N is
    300 minus the elapsed time with its fraction dropped ([int], here the
    floor); N is never negative, and it is 0 exactly when more than 299
    seconds have passed.  Only the clock has been read. *)
Theorem resend_otp_cooldown (data : ResendRequest.t) (w : world) (entry : Otp.t) :
  load_data (OTPS_FILE w) !! ResendRequest.email data = Some entry →
  let elapsed := (feed (clock w) (taken (clock w)) - Otp.timestamp entry)%Q in
  (elapsed < 300)%Q →
  let remaining := Qfloor (300 - elapsed) in
  resend_otp data w
  = (Raise (HTTPError 403 (wait_message remaining)), set_clock (advance 1 (clock w)) w)
  ∧ remaining_seconds elapsed = remaining
  ∧ (0 ≤ remaining)%Z
  ∧ (remaining = 0%Z ↔ (299 < elapsed)%Q).
Proof.
  intros Hotp elapsed Hlt remaining.
  assert (Hpos : (0 <= 300 - elapsed)%Q) by lra.
  assert (Hrem : remaining_seconds elapsed = remaining)
    by (apply py_int_floor, Hpos).
  split_and!.
  - unfold resend_otp. step. rewrite Hotp. cbn. fold elapsed.
    destruct (Qlt_le_dec elapsed 300) as [_|Hge]; [|lra].
    cbn. rewrite Hrem. reflexivity.
  - exact Hrem.
  - subst remaining. change 0%Z with (Qfloor 0). apply Qfloor_resp_le, Hpos.
  - subst remaining. rewrite Qfloor_zero_iff. split; [intros [_ H]; lra | intros H; split; lra].
Qed.

Lemma resend_otp_cooldown_witness :
  let w := pending (bob false) "271828" 0 [120%Q] in
  resend_otp (ResendRequest.mk "bob@example.com") w
  = (Raise (HTTPError 403 "Wait 180 seconds before resending OTP."),
     set_clock (advance 1 (clock w)) w)
  ∧ remaining_seconds (120 - 0) = 180%Z.
Proof.
  intros w.
  assert (Hlt : (feed (clock w) (taken (clock w)) - 0 < 300)%Q) by reflexivity.
  destruct (resend_otp_cooldown (ResendRequest.mk "bob@example.com") w
              (Otp.mk "271828" 0) eq_refl Hlt) as (Hrun & Hrem & _).
  split; [exact Hrun | exact Hrem].
Defined.

(** C1, as stated, fails: half a second before the cooldown ends the
    refusal reports 0 seconds, where rounding up gives 1; so the reported
    value is not the ceiling, and it can be 0. *)
Lemma resend_otp_reports_zero_seconds :
  let w := pending (bob false) "271828" 0 [299.5%Q] in
  let elapsed := (299.5 - 0)%Q in
  (elapsed < 300)%Q
  ∧ resend_otp (ResendRequest.mk "bob@example.com") w
    = (Raise (HTTPError 403 "Wait 0 seconds before resending OTP."),
       set_clock (advance 1 (clock w)) w)
  ∧ remaining_seconds elapsed = 0%Z
  ∧ Qceiling (300 - elapsed) = 1%Z.
Proof. vm_compute. repeat split. Qed.

(** C4, as the code has it: when a pending OTP exists and at least 300
    seconds have passed, [resend_otp] succeeds and stores, under the email,
    the code just generated with the time of a second reading of the clock;
    the other entries and the users file are as before, and the new code is
    printed.  Presenting the previous code to [verify_otp] then fails with
    400 "Invalid OTP." if the new code differs from it, and succeeds if the
    generator has produced the same six digits again. *)
Theorem resend_otp_replaces (data : ResendRequest.t) (w : world) (entry : Otp.t) :
  let email := ResendRequest.email data in
  load_data (OTPS_FILE w) !! email = Some entry →
  (300 <= feed (clock w) (taken (clock w)) - Otp.timestamp entry)%Q →
  let fresh := next_otp (rng w) in
  let issued := feed (clock w) (S (taken (clock w))) in
  let previous := OTPVerify.mk email (Otp.otp entry) in
  ∃ w',
    resend_otp data w = (Return "OTP resent. Check console.", w')
    ∧ load_data (OTPS_FILE w')
      = <[email := Otp.mk fresh issued]> (load_data (OTPS_FILE w))
    ∧ USERS_FILE w' = USERS_FILE w
    ∧ console w'
      = (console w ++ [("[OTP] Resent OTP for " ++ email ++ ": " ++ fresh)%string])%list
    ∧ (fresh ≠ Otp.otp entry →
       verify_otp previous w' = (Raise (HTTPError 400 "Invalid OTP."), w'))
    ∧ (fresh = Otp.otp entry →
       ∃ w'', verify_otp previous w'
              = (Return "OTP verified successfully. User is now verified.", w'')).
Proof.
  intros email Hotp Hge fresh issued previous.
  unfold resend_otp. step. fold email. rewrite Hotp. cbn.
  destruct (Qlt_le_dec _ _) as [Hlt|_]; [lra|].
  rewrite generate_otp_run. cbn. fold fresh issued.
  eexists. split; [reflexivity|]. cbn. split_and!; try reflexivity.
  - intros Hne. unfold verify_otp. step. rewrite lookup_insert_eq. cbn.
    destruct (String.eqb_spec fresh (Otp.otp entry)) as [Heq|_]; [contradiction|].
    reflexivity.
  - intros Heq. unfold verify_otp. step. rewrite lookup_insert_eq. cbn.
    rewrite Heq, String.eqb_refl. cbn.
    destruct (load_data (USERS_FILE w) !! email); cbn; eexists; reflexivity.
Qed.

Lemma resend_otp_replaces_witness :
  let w := pending (bob false) "271828" 0 [300%Q; 301%Q] in
  ∃ w',
    resend_otp (ResendRequest.mk "bob@example.com") w
    = (Return "OTP resent. Check console.", w')
    ∧ load_data (OTPS_FILE w') !! "bob@example.com" = Some (Otp.mk "314159" 301)
    ∧ verify_otp (OTPVerify.mk "bob@example.com" "271828") w'
      = (Raise (HTTPError 400 "Invalid OTP."), w').
Proof.
  intros w.
  assert (Hge : (300 <= feed (clock w) (taken (clock w)) - 0)%Q) by discriminate.
  destruct (resend_otp_replaces (ResendRequest.mk "bob@example.com") w
              (Otp.mk "271828" 0) eq_refl Hge) as (w' & Hrun & Hdoc & _ & _ & Hold & _).
  exists w'. split; [exact Hrun|]. split.
  - rewrite Hdoc. reflexivity.
  - apply Hold. vm_compute. discriminate.
Defined.

(** C4, as stated, fails: the generator may produce the stored code again,
    and then the previous code still verifies after the resend. *)
Lemma resend_otp_may_repeat_the_code :
  let w := pending (bob false) "314159" 0 [300%Q; 301%Q] in
  ∃ w' w'',
    resend_otp (ResendRequest.mk "bob@example.com") w
    = (Return "OTP resent. Check console.", w')
    ∧ load_data (OTPS_FILE w') !! "bob@example.com" = Some (Otp.mk "314159" 301)
    ∧ verify_otp (OTPVerify.mk "bob@example.com" "314159") w'
      = (Return "OTP verified successfully. User is now verified.", w'').
Proof.
  intros w. do 2 eexists. split_and!.
  - vm_compute. reflexivity.
  - vm_compute. reflexivity.
  - vm_compute. reflexivity.
Qed.

(** ** Password strength *)

Ltac every_ascii c :=
  destruct c as [[] [] [] [] [] [] [] []]; vm_compute; reflexivity.

Lemma upper_letters (c : ascii) :
  Re.upper c = bool_decide (c ∈ list_ascii_of_string uppercase_letters).
Proof. every_ascii c. Qed.

Lemma lower_letters (c : ascii) :
  Re.lower c = bool_decide (c ∈ list_ascii_of_string lowercase_letters).
Proof. every_ascii c. Qed.

Lemma digit_digits (c : ascii) :
  Re.digit c = bool_decide (c ∈ list_ascii_of_string decimal_digits).
Proof. every_ascii c. Qed.

Lemma search_one (cls : ascii → bool) (s : string) (i : nat) :
  Re.search_from [Re.One cls] i s = true
  ↔ ∃ c, c ∈ list_ascii_of_string s ∧ cls c = true.
Proof.
  revert i. induction s as [|c s IH]; intros i; cbn.
  - split; [discriminate | intros (c & Hc & _); inversion Hc].
  - rewrite orb_true_iff, andb_true_r, IH. split.
    + intros [Hc | (c' & Hin & Hc')].
      * exists c. split; [left | exact Hc].
      * exists c'. split; [right; exact Hin | exact Hc'].
    + intros (c' & Hin & Hc'). apply elem_of_cons in Hin as [-> | Hin].
      * left. exact Hc'.
      * right. exists c'. split; assumption.
Qed.

Lemma search_alphabet (cls : ascii → bool) (alphabet s : string) :
  (∀ c, cls c = bool_decide (c ∈ list_ascii_of_string alphabet)) →
  Re.re_search [Re.One cls] s = true ↔ contains_one_of alphabet s.
Proof.
  intros Hcls. unfold Re.re_search, contains_one_of. rewrite search_one.
  split; intros (c & Hin & Hc); exists c; split; try exact Hin.
  - rewrite Hcls in Hc. apply bool_decide_eq_true in Hc. exact Hc.
  - rewrite Hcls. apply bool_decide_eq_true. exact Hc.
Qed.

(** For the passwords of the handlers, strings of code points below 256
    (where the only decimal digits are 0-9): the function is true exactly
    for the strings of length at least 8 with one of A-Z, one of a-z and
    one of 0-9. *)
Lemma is_strong_password_below_256 :
  (∀ s : string,
     is_strong_password s = true
     ↔ (8 ≤ String.length s)%nat
       ∧ contains_one_of uppercase_letters s
       ∧ contains_one_of lowercase_letters s
       ∧ contains_one_of decimal_digits s)
  ∧ is_strong_password "Abcdefg1" = true
  ∧ is_strong_password "abcdefg1" = false
  ∧ is_strong_password "ABCDEFG1" = false
  ∧ is_strong_password "Abcdefg" = false
  ∧ is_strong_password "Ab1" = false.
Proof.
  split; [|repeat split].
  intros s. unfold is_strong_password.
  rewrite !andb_true_iff, Nat.leb_le.
  rewrite (search_alphabet _ _ s upper_letters),
          (search_alphabet _ _ s lower_letters),
          (search_alphabet _ _ s digit_digits).
  tauto.
Qed.

(** *** On every string of code points *)

Lemma search_iff (cls : N → bool) (s : Unicode.str) :
  Unicode.search cls s = true ↔ ∃ c, c ∈ s ∧ cls c = true.
Proof.
  induction s as [|x s IH]; cbn.
  - split; [discriminate | intros (c & Hc & _); inversion Hc].
  - rewrite orb_true_iff, IH. split.
    + intros [Hx | (c & Hc & Hcls)]; [exists x | exists c]; split; auto; [left | right; auto].
    + intros (c & Hc & Hcls). apply elem_of_cons in Hc as [-> | Hc]; eauto.
Qed.

Lemma elem_of_run (lo : N) (n : nat) (c : N) :
  c ∈ ((λ i, lo + N.of_nat i)%N <$> seq 0 n) ↔ (lo ≤ c < lo + N.of_nat n)%N.
Proof.
  rewrite list_elem_of_fmap. split.
  - intros (i & -> & Hi). apply elem_of_seq in Hi. lia.
  - intros Hc. exists (N.to_nat (c - lo)). split; [lia|].
    apply elem_of_seq. lia.
Qed.

Lemma in_range_iff (lo hi c : N) :
  Unicode.in_range lo hi c = true ↔ (lo ≤ c ≤ hi)%N.
Proof. unfold Unicode.in_range. rewrite andb_true_iff, !N.leb_le. reflexivity. Qed.

Lemma upper_iff (c : N) :
  Unicode.upper c = true ↔ c ∈ Unicode.of_string uppercase_letters.
Proof.
  change (Unicode.of_string uppercase_letters)
    with ((λ i, 65 + N.of_nat i)%N <$> seq 0 26).
  unfold Unicode.upper. rewrite in_range_iff, elem_of_run. lia.
Qed.

Lemma lower_iff (c : N) :
  Unicode.lower c = true ↔ c ∈ Unicode.of_string lowercase_letters.
Proof.
  change (Unicode.of_string lowercase_letters)
    with ((λ i, 97 + N.of_nat i)%N <$> seq 0 26).
  unfold Unicode.lower. rewrite in_range_iff, elem_of_run. lia.
Qed.

Lemma digit_iff (c : N) :
  Unicode.digit c = true
  ↔ ∃ zero, zero ∈ Unicode.decimal_zeros ∧ (zero ≤ c ≤ zero + 9)%N.
Proof.
  unfold Unicode.digit. rewrite existsb_exists. split.
  - intros (z & Hz & Hc). exists z. split; [apply list_elem_of_In, Hz|].
    apply in_range_iff, Hc.
  - intros (z & Hz & Hc). exists z. split; [apply list_elem_of_In, Hz|].
    apply in_range_iff, Hc.
Qed.

Lemma N_of_ascii_inj : Inj (=) (=) N_of_ascii.
Proof.
  intros a b H.
  rewrite <- (ascii_N_embedding a), <- (ascii_N_embedding b), H. reflexivity.
Qed.

Lemma upper_of_ascii (a : ascii) : Unicode.upper (N_of_ascii a) = Re.upper a.
Proof. every_ascii a. Qed.

Lemma lower_of_ascii (a : ascii) : Unicode.lower (N_of_ascii a) = Re.lower a.
Proof. every_ascii a. Qed.

Lemma digit_of_ascii (a : ascii) : Unicode.digit (N_of_ascii a) = Re.digit a.
Proof. every_ascii a. Qed.

Lemma search_of_string (cls : N → bool) (cls' : ascii → bool) (s : string) (i : nat) :
  (∀ a, cls (N_of_ascii a) = cls' a) →
  Unicode.search cls (Unicode.of_string s) = Re.search_from [Re.One cls'] i s.
Proof.
  intros Hcls. revert i. induction s as [|a s IH]; intros i; [reflexivity|].
  cbn. rewrite andb_true_r, Hcls. f_equal. apply IH.
Qed.

Lemma length_of_string (s : string) :
  length (Unicode.of_string s) = String.length s.
Proof.
  unfold Unicode.of_string. rewrite length_fmap.
  induction s as [|a s IH]; cbn; [reflexivity | rewrite IH; reflexivity].
Qed.

(** On a string of code points below 256, the function on every [str] is
    the function of the handlers. *)
Lemma is_strong_password_of_string (s : string) :
  Unicode.is_strong_password (Unicode.of_string s) = is_strong_password s.
Proof.
  unfold Unicode.is_strong_password, is_strong_password, Re.re_search.
  rewrite length_of_string,
    (search_of_string _ _ s 0 upper_of_ascii),
    (search_of_string _ _ s 0 lower_of_ascii),
    (search_of_string _ _ s 0 digit_of_ascii).
  reflexivity.
Qed.

(** C8, as stated, fails: seven ASCII letters followed by U+0663, the
    Arabic-Indic digit three, make a password of length 8 that the function
    accepts, and none of its characters is one of 0-9. *)
Lemma strong_password_without_ascii_digit :
  let password := (Unicode.of_string "Abcdefg" ++ [1635%N])%list in
  Unicode.is_strong_password password = true
  ∧ length password = 8%nat
  ∧ ∀ c, c ∈ password → c ∉ Unicode.of_string decimal_digits.
Proof.
  intros password. split; [reflexivity|]. split; [reflexivity|].
  subst password. intros c Hc Hd. vm_compute in Hc, Hd.
  repeat (apply elem_of_cons in Hc as [-> | Hc];
          [repeat (apply elem_of_cons in Hd as [Hd | Hd]; [discriminate|]);
           inversion Hd|]).
  inversion Hc.
Qed.

(** C8, as the code has it: [is_strong_password] is true exactly for the
    strings of at least 8 code points that contain one of A-Z, one of a-z
    and one decimal digit of Unicode, that is, a character of one of the
    runs of ten that start at the zeros of [Unicode.decimal_zeros]; among
    the code points below 256 these digits are 0-9 alone.  "Abcdefg1"
    passes, and "abcdefg1" (no A-Z), "ABCDEFG1" (no a-z), "Abcdefg" (no
    digit) and "Ab1" (too short) do not. *)
Theorem is_strong_password_unicode_iff :
  (∀ s : Unicode.str,
     Unicode.is_strong_password s = true
     ↔ (8 ≤ length s)%nat
       ∧ (∃ c, c ∈ s ∧ c ∈ Unicode.of_string uppercase_letters)
       ∧ (∃ c, c ∈ s ∧ c ∈ Unicode.of_string lowercase_letters)
       ∧ (∃ c zero, c ∈ s ∧ zero ∈ Unicode.decimal_zeros
                    ∧ (zero ≤ c ≤ zero + 9)%N))
  ∧ (∀ c, (c < 256)%N →
          Unicode.digit c = true ↔ c ∈ Unicode.of_string decimal_digits)
  ∧ Unicode.is_strong_password (Unicode.of_string "Abcdefg1") = true
  ∧ Unicode.is_strong_password (Unicode.of_string "abcdefg1") = false
  ∧ Unicode.is_strong_password (Unicode.of_string "ABCDEFG1") = false
  ∧ Unicode.is_strong_password (Unicode.of_string "Abcdefg") = false
  ∧ Unicode.is_strong_password (Unicode.of_string "Ab1") = false.
Proof.
  split; [|split; [|repeat split]].
  - intros s. unfold Unicode.is_strong_password.
    rewrite !andb_true_iff, Nat.leb_le, !search_iff.
    setoid_rewrite upper_iff. setoid_rewrite lower_iff. setoid_rewrite digit_iff.
    split.
    + intros [[[Hlen Hu] Hl] (c & Hc & zero & Hz & Hr)]. eauto 10.
    + intros (Hlen & Hu & Hl & c & zero & Hc & Hz & Hr). eauto 10.
  - intros c Hc. rewrite <- (N_ascii_embedding c Hc), digit_of_ascii, digit_digits.
    rewrite bool_decide_eq_true. unfold Unicode.of_string.
    pose proof N_of_ascii_inj as Hinj.
    rewrite (list_elem_of_fmap_inj N_of_ascii). reflexivity.
Qed.

Lemma is_strong_password_unicode_iff_witness :
  (51 < 256)%N
  ∧ 51%N ∈ Unicode.of_string decimal_digits
  ∧ (∃ c zero, c ∈ Unicode.of_string "Abcdefg1" ∧ zero ∈ Unicode.decimal_zeros
               ∧ (zero ≤ c ≤ zero + 9)%N).
Proof.
  destruct is_strong_password_unicode_iff as (Hiff & Hdigit & Hpass & _).
  split; [reflexivity|]. split.
  - apply (Hdigit 51%N); reflexivity.
  - apply Hiff in Hpass as (_ & _ & _ & Hd). exact Hd.
Defined.

(** ** The shape of an email *)

Lemma append_nil_r (s : string) : s ++ "" = s.
Proof. induction s as [|c s IH]; [reflexivity | exact (f_equal (String c) IH)]. Qed.

Lemma append_assoc (a b c : string) : (a ++ b) ++ c = a ++ (b ++ c).
Proof. induction a as [|x a IH]; [reflexivity | exact (f_equal (String x) IH)]. Qed.

Lemma append_cons (c : ascii) (a b : string) : String c a ++ b = String c (a ++ b).
Proof. reflexivity. Qed.

Lemma append_empty (a b : string) : a ++ b = "" → a = "" ∧ b = "".
Proof. destruct a; [intros H; split; [reflexivity | exact H] | discriminate]. Qed.

Lemma last_char_append (a b : string) : b ≠ "" → last_char (a ++ b) = last_char b.
Proof.
  intros Hb. induction a as [|c a IH]; [reflexivity|].
  rewrite append_cons. destruct (a ++ b) as [|x r] eqn:E.
  - apply append_empty in E as [_ ->]. contradiction.
  - exact IH.
Qed.

Lemma last_char_over (cls : ascii → bool) (s : string) :
  over cls s → ∃ c, last_char s = Some c ∧ cls c = true.
Proof.
  intros [Hne Hall]. induction s as [|c s IH]; [contradiction|].
  destruct s as [|c' s'].
  - exists c. split; [reflexivity | apply Hall; left].
  - destruct IH as (x & Hx & Hcls); [discriminate | |].
    + intros y Hy. apply Hall. right. exact Hy.
    + exists x. split; [exact Hx | exact Hcls].
Qed.

Lemma email_shape_ends_in_word (s : string) :
  email_shape s → ∃ c, last_char s = Some c ∧ Re.word c = true.
Proof.
  intros (l & d & t & -> & _ & _ & Ht).
  destruct (last_char_over _ _ Ht) as (c & Hc & Hw).
  exists c. split; [|exact Hw].
  replace (l ++ "@" ++ d ++ "." ++ t) with ((l ++ "@" ++ d ++ ".") ++ t)
    by (rewrite !append_assoc; reflexivity).
  rewrite last_char_append by apply Ht. exact Hc.
Qed.

Lemma many_spec (cls : ascii → bool) (k : nat → string → bool) (s : string) (i : nat) :
  Re.many cls k i s = true
  ↔ ∃ a b, s = a ++ b ∧ over cls a ∧ k (i + String.length a)%nat b = true.
Proof.
  revert i. induction s as [|c s IH]; intros i; cbn.
  - split; [discriminate|].
    intros (a & b & E & [Hne _] & _). destruct a; [contradiction | discriminate].
  - rewrite andb_true_iff, orb_true_iff, IH. split.
    + intros [Hc [(a & b & -> & [Hne Hall] & Hk) | Hk]].
      * exists (String c a), b. split; [reflexivity|]. split; [split; [discriminate|]|].
        -- intros x Hx. apply elem_of_cons in Hx as [-> | Hx]; auto.
        -- cbn. rewrite Nat.add_succ_r. exact Hk.
      * exists (String c ""), s. split; [reflexivity|]. split; [split; [discriminate|]|].
        -- intros x Hx. apply elem_of_cons in Hx as [-> | Hx]; [exact Hc | inversion Hx].
        -- cbn. rewrite Nat.add_1_r. exact Hk.
    + intros (a & b & E & [Hne Hall] & Hk).
      destruct a as [|c' a]; [contradiction|].
      rewrite append_cons in E. injection E as <- ->.
      split; [apply Hall; left|].
      destruct a as [|c'' a].
      * right. cbn in Hk. rewrite Nat.add_1_r in Hk. exact Hk.
      * left. exists (String c'' a), b. split; [reflexivity|].
        split; [split; [discriminate|]|].
        -- intros x Hx. apply Hall. right. exact Hx.
        -- cbn in *. rewrite Nat.add_succ_r in Hk. exact Hk.
Qed.

Lemma at_eol_iff (s : string) : Re.at_eol s = true ↔ s = "" ∨ s = nl.
Proof.
  destruct s as [|c [|c' s]]; cbn.
  - split; auto.
  - split.
    + intros H. apply Ascii.eqb_eq in H as ->. right. reflexivity.
    + intros [H | H]; [discriminate | injection H as ->; reflexivity].
  - split; [discriminate | intros [H | H]; discriminate].
Qed.

Lemma email_re_matches (l d t e : string) :
  over Re.word_dot_dash l → over Re.word_dot_dash d → over Re.word t →
  Re.at_eol e = true →
  Re.re_match EMAIL_RE (l ++ "@" ++ d ++ "." ++ t ++ e) = true.
Proof.
  intros Hl Hd Ht He. unfold Re.re_match, EMAIL_RE. cbn.
  apply many_spec. exists l, ("@" ++ d ++ "." ++ t ++ e).
  split; [reflexivity|]. split; [exact Hl|]. cbn.
  apply many_spec. exists d, ("." ++ t ++ e).
  split; [reflexivity|]. split; [exact Hd|]. cbn.
  apply many_spec. exists t, e.
  split; [reflexivity|]. split; [exact Ht|].
  rewrite andb_true_r. exact He.
Qed.

(** What [is_valid_email] accepts: the strings of the shape
    local-part@domain.tld, and those strings followed by one newline. *)
Theorem is_valid_email_iff (s : string) :
  is_valid_email s = true
  ↔ ∃ body, email_shape body ∧ (s = body ∨ s = body ++ nl).
Proof.
  split.
  - unfold is_valid_email, Re.re_match, EMAIL_RE. cbn. rewrite many_spec.
    intros (l & r & -> & Hl & Hk).
    destruct r as [|c r]; [discriminate|].
    apply andb_true_iff in Hk as [Hat Hk].
    apply Ascii.eqb_eq in Hat as ->.
    apply many_spec in Hk as (d & r' & -> & Hd & Hk).
    destruct r' as [|c r']; [discriminate|].
    apply andb_true_iff in Hk as [Hdot Hk].
    apply Ascii.eqb_eq in Hdot as ->.
    apply many_spec in Hk as (t & e & -> & Ht & Hk).
    rewrite andb_true_r in Hk. apply at_eol_iff in Hk.
    exists (l ++ "@" ++ d ++ "." ++ t). split.
    + exists l, d, t. auto.
    + destruct Hk as [-> | ->].
      * left. rewrite append_nil_r. reflexivity.
      * right. rewrite !append_assoc. reflexivity.
  - intros (body & (l & d & t & -> & Hl & Hd & Ht) & [-> | ->]).
    + rewrite <- (append_nil_r t). apply email_re_matches; auto.
    + rewrite !append_assoc. apply (email_re_matches l d t nl); auto.
Qed.

(** C7 fails on the code: an address followed by a newline is accepted,
    because [$] also matches just before a final newline, although the
    string does not have the shape local-part@domain.tld (it does not end
    in a word character). *)
Theorem is_valid_email_accepts_trailing_newline :
  is_valid_email ("alice@example.com" ++ nl) = true
  ∧ ¬ email_shape ("alice@example.com" ++ nl)
  ∧ email_shape "alice@example.com".
Proof.
  split; [reflexivity|]. split.
  - intros H. apply email_shape_ends_in_word in H as (c & Hc & Hw).
    vm_compute in Hc. injection Hc as <-. vm_compute in Hw. discriminate.
  - exists "alice", "example", "com". split; [reflexivity|].
    split_and!; (split; [discriminate|]); intros c Hc;
      repeat (apply elem_of_cons in Hc as [-> | Hc]; [reflexivity|]);
      inversion Hc.
Qed.

(** * Further properties of the code *)

(** ** The handlers, run to their end *)

Lemma signup_run (user : UserCreate.t) (w : world) :
  signup user w =
  let email := UserCreate.email user in
  if decide (is_Some (users_of w !! email)) then
    (Raise (HTTPError 409 "User already exists."), w)
  else if is_valid_email email then
    if is_strong_password (UserCreate.password user) then
      let otp := next_otp (rng w) in
      (Return "User registered. OTP sent to console.",
       World (Json (<[email := User.mk (feed (uuids w) (taken (uuids w)))
                                  (UserCreate.name user) email
                                  (UserCreate.password user) false]> (users_of w)))
             (Json (<[email := Otp.mk otp (feed (clock w) (taken (clock w)))]>
                      (otps_of w)))
             (PRODUCTS_FILE w)
             (advance 1 (clock w)) (advance 6 (rng w)) (advance 1 (uuids w))
             (console w ++ [("[OTP] Your OTP for " ++ email ++ " is: " ++ otp)%string]))
    else (Raise (HTTPError 400 "Weak password."), w)
  else (Raise (HTTPError 400 "Invalid email."), w).
Proof.
  unfold signup, users_of, otps_of. step.
  destruct (decide _); [reflexivity|].
  destruct (is_valid_email _); cbn; [|reflexivity].
  destruct (is_strong_password _); cbn; [|reflexivity].
  rewrite generate_otp_run. reflexivity.
Qed.

Lemma verify_otp_run (data : OTPVerify.t) (w : world) :
  verify_otp data w =
  let email := OTPVerify.email data in
  match otps_of w !! email with
  | None => (Raise (HTTPError 404 "No OTP found for this email."), w)
  | Some entry =>
      if String.eqb (Otp.otp entry) (OTPVerify.otp data) then
        (Return "OTP verified successfully. User is now verified.",
         let w1 := set_OTPS_FILE (Json (delete email (otps_of w))) w in
         match users_of w !! email with
         | Some u =>
             set_USERS_FILE (Json (<[email := User.set_verified true u]> (users_of w))) w1
         | None => w1
         end)
      else (Raise (HTTPError 400 "Invalid OTP."), w)
  end.
Proof.
  unfold verify_otp, users_of, otps_of. step.
  destruct (_ !! _) as [entry|]; [|reflexivity].
  destruct (String.eqb _ _); cbn; [|reflexivity].
  destruct (_ !! _); reflexivity.
Qed.

Lemma resend_otp_run (data : ResendRequest.t) (w : world) :
  resend_otp data w =
  let email := ResendRequest.email data in
  match otps_of w !! email with
  | None => (Raise (HTTPError 404 "No signup found for this email."), w)
  | Some entry =>
      let elapsed := (feed (clock w) (taken (clock w)) - Otp.timestamp entry)%Q in
      if Qlt_le_dec elapsed 300 then
        (Raise (HTTPError 403 (wait_message (remaining_seconds elapsed))),
         set_clock (advance 1 (clock w)) w)
      else
        let otp := next_otp (rng w) in
        (Return "OTP resent. Check console.",
         World (USERS_FILE w)
               (Json (<[email := Otp.mk otp (feed (clock w) (S (taken (clock w))))]>
                        (otps_of w)))
               (PRODUCTS_FILE w)
               (advance 2 (clock w)) (advance 6 (rng w)) (uuids w)
               (console w ++ [("[OTP] Resent OTP for " ++ email ++ ": " ++ otp)%string]))
  end.
Proof.
  unfold resend_otp, otps_of. step.
  destruct (_ !! _) as [entry|]; [|reflexivity].
  cbn. destruct (Qlt_le_dec _ _); cbn; [reflexivity|].
  rewrite generate_otp_run. reflexivity.
Qed.

Lemma add_product_run (product : ProductCreate.t) (w : world) :
  add_product product w =
  if float_le (ProductCreate.price product) (Finite 0) then
    (Raise (HTTPError 400 "price must be greater than 0"), w)
  else
    let p := Product.mk (feed (uuids w) (taken (uuids w)))
               (ProductCreate.name product) (ProductCreate.price product)
               (ProductCreate.categories product) (ProductCreate.page product)
               (ProductCreate.image product) in
    (Return p,
     World (USERS_FILE w) (OTPS_FILE w) (Json (products_of w ++ [p])%list)
           (clock w) (rng w) (advance 1 (uuids w)) (console w)).
Proof.
  unfold add_product, products_of.
  destruct (float_le _ _); reflexivity.
Qed.

(** ** The generated code *)

Lemma get_in (s : string) (i : nat) :
  (i < String.length s)%nat →
  ∃ c, String.get i s = Some c ∧ c ∈ list_ascii_of_string s.
Proof.
  revert i. induction s as [|x s IH]; intros i Hi; cbn in Hi; [lia|].
  destruct i as [|i]; cbn.
  - exists x. split; [reflexivity | left].
  - destruct (IH i) as (c & Hc & Hin); [lia|].
    exists c. split; [exact Hc | right; exact Hin].
Qed.

Lemma pick_in (population : string) (n : nat) :
  population ≠ "" → pick population n ∈ list_ascii_of_string population.
Proof.
  intros Hne. unfold pick.
  destruct (get_in population (n mod String.length population)) as (c & -> & Hin).
  - apply Nat.mod_upper_bound. destruct population; [contradiction | cbn; lia].
  - exact Hin.
Qed.

Lemma picks_length (population : string) (r : source nat) (k : nat) :
  String.length (picks population r k) = k.
Proof.
  revert r. induction k as [|k IH]; intros r; cbn; [reflexivity|].
  rewrite IH. reflexivity.
Qed.

Lemma picks_in (population : string) (r : source nat) (k : nat) (c : ascii) :
  population ≠ "" →
  c ∈ list_ascii_of_string (picks population r k) →
  c ∈ list_ascii_of_string population.
Proof.
  intros Hne. revert r. induction k as [|k IH]; intros r; cbn.
  - intros H. inversion H.
  - intros H. apply elem_of_cons in H as [-> | H].
    + apply pick_in, Hne.
    + apply (IH _ H).
Qed.

Lemma next_otp_six_digits (r : source nat) : six_digits (next_otp r).
Proof.
  split.
  - apply picks_length.
  - intros c. apply picks_in. discriminate.
Qed.

(** X1: [generate_otp] returns a string of exactly six decimal digits,
    whatever the random source holds; it takes six draws from that source
    and touches nothing else in the world. *)
Theorem generate_otp_six_digits (w : world) :
  ∃ code,
    generate_otp w = (Return code, set_rng (advance 6 (rng w)) w)
    ∧ six_digits code.
Proof.
  exists (next_otp (rng w)). split.
  - apply generate_otp_run.
  - apply next_otp_six_digits.
Qed.

(** ** Signup, beyond the duplicate *)

Lemma not_registered (m : gmap string User.t) (k : string) :
  m !! k = None → ¬ is_Some (m !! k).
Proof. intros -> [u Hu]. discriminate. Qed.

(** X2: a signup with an email that has no account, that [is_valid_email]
    accepts and with a password that [is_strong_password] accepts succeeds
    with a fixed message that does not show the code.  It stores, under
    the email, an unverified account with the next uuid and the submitted
    name, email and password, and a pending OTP made of the generated code
    and the clock's reading; both overwrite no other key.  The one line
    printed shows the code; the products file is not written. *)
Theorem signup_registers (user : UserCreate.t) (w : world) :
  let email := UserCreate.email user in
  let code := next_otp (rng w) in
  users_of w !! email = None →
  is_valid_email email = true →
  is_strong_password (UserCreate.password user) = true →
  ∃ w',
    signup user w = (Return "User registered. OTP sent to console.", w')
    ∧ users_of w'
      = <[email := User.mk (feed (uuids w) (taken (uuids w))) (UserCreate.name user)
                           email (UserCreate.password user) false]> (users_of w)
    ∧ otps_of w' = <[email := Otp.mk code (feed (clock w) (taken (clock w)))]> (otps_of w)
    ∧ six_digits code
    ∧ console w'
      = (console w ++ [("[OTP] Your OTP for " ++ email ++ " is: " ++ code)%string])%list
    ∧ PRODUCTS_FILE w' = PRODUCTS_FILE w.
Proof.
  intros email code Hnew Hvalid Hstrong. rewrite signup_run. cbn zeta. fold email.
  destruct (decide _) as [Hin|_]; [destruct (not_registered _ _ Hnew Hin)|].
  rewrite Hvalid, Hstrong. eexists. split; [reflexivity|].
  split_and!; try reflexivity. apply next_otp_six_digits.
Qed.

Lemma signup_registers_witness :
  ∃ w',
    signup carol (registered (bob true))
    = (Return "User registered. OTP sent to console.", w')
    ∧ users_of w' !! "carol@example.com"
      = Some (User.mk "0" "Carol" "carol@example.com" "Sunflower7" false)
    ∧ users_of w' !! "bob@example.com" = Some (bob true)
    ∧ otps_of w' !! "carol@example.com" = Some (Otp.mk "314159" 1000)
    ∧ console w' = ["[OTP] Your OTP for carol@example.com is: 314159"].
Proof.
  destruct (signup_registers carol (registered (bob true)) eq_refl eq_refl eq_refl)
    as (w' & Hrun & Husers & Hotps & _ & Hconsole & _).
  exists w'. split; [exact Hrun|]. rewrite Husers, Hotps, Hconsole.
  repeat split.
Defined.

(** X3: among the refusals of [signup], the duplicate comes first, then
    the email, then the password: with no account under the email, an
    email that [is_valid_email] rejects gives 400 "Invalid email." even
    when the password is weak too, and a weak password gives 400 "Weak
    password." only when the email is accepted.  The signup succeeds
    exactly when the email is new and accepted and the password strong. *)
Theorem signup_outcome (user : UserCreate.t) (w : world) :
  let email := UserCreate.email user in
  let password := UserCreate.password user in
  (users_of w !! email = None → is_valid_email email = false →
   signup user w = (Raise (HTTPError 400 "Invalid email."), w))
  ∧ (users_of w !! email = None → is_valid_email email = true →
     is_strong_password password = false →
     signup user w = (Raise (HTTPError 400 "Weak password."), w))
  ∧ ((∃ msg w', signup user w = (Return msg, w'))
     ↔ users_of w !! email = None ∧ is_valid_email email = true
       ∧ is_strong_password password = true).
Proof.
  intros email password. rewrite signup_run. cbn zeta. fold email password.
  destruct (decide _) as [[u Hu]|Hno].
  - rewrite Hu. split_and!; try discriminate.
    split; [intros (msg & w' & [=]) | intros ([=] & _)].
  - assert (Hnone : users_of w !! email = None).
    { destruct (users_of w !! email) eqn:E; [|reflexivity]. destruct Hno. eauto. }
    destruct (is_valid_email email), (is_strong_password password);
      split_and!; try discriminate; try reflexivity;
      try (split; [intros (msg & w' & [=]) | intros (_ & Hv & Hs); discriminate]).
    split; [auto | eauto].
Qed.

Lemma signup_outcome_witness :
  signup (UserCreate.mk "Dan" "dan.example.com" "weak") (registered (bob true))
  = (Raise (HTTPError 400 "Invalid email."), registered (bob true))
  ∧ signup (UserCreate.mk "Dan" "dan@example.com" "weak") (registered (bob true))
    = (Raise (HTTPError 400 "Weak password."), registered (bob true))
  ∧ ∃ msg w', signup carol (registered (bob true)) = (Return msg, w').
Proof.
  split_and!.
  - apply (signup_outcome (UserCreate.mk "Dan" "dan.example.com" "weak")); reflexivity.
  - apply (signup_outcome (UserCreate.mk "Dan" "dan@example.com" "weak")); reflexivity.
  - apply (signup_outcome carol). repeat split.
Defined.

(** ** From signup to login *)

(** X4: after a successful signup, a login with the submitted password is
    refused with "Email not verified. Please verify OTP first."; presenting
    the code that the signup printed to [verify_otp] succeeds, and from
    then on the same login succeeds and greets the user by the submitted
    name. *)
Theorem signup_verify_login (user : UserCreate.t) (w : world) :
  let email := UserCreate.email user in
  let password := UserCreate.password user in
  let code := next_otp (rng w) in
  users_of w !! email = None →
  is_valid_email email = true →
  is_strong_password password = true →
  ∃ w1 w2,
    signup user w = (Return "User registered. OTP sent to console.", w1)
    ∧ last (console w1)
      = Some ("[OTP] Your OTP for " ++ email ++ " is: " ++ code)%string
    ∧ login (UserLogin.mk email password) w1
      = (Raise (HTTPError 404 "Email not verified. Please verify OTP first."), w1)
    ∧ verify_otp (OTPVerify.mk email code) w1
      = (Return "OTP verified successfully. User is now verified.", w2)
    ∧ login (UserLogin.mk email password) w2
      = (Return ("Login successful. welcome " ++ UserCreate.name user ++ "!"), w2).
Proof.
  intros email password code Hnew Hvalid Hstrong.
  rewrite signup_run. cbn zeta. fold email password code.
  destruct (decide _) as [Hin|_]; [destruct (not_registered _ _ Hnew Hin)|].
  rewrite Hvalid, Hstrong. eexists. eexists. split; [reflexivity|].
  split; [cbn; apply last_snoc|].
  split.
  { rewrite login_run. cbn. rewrite lookup_insert_eq. reflexivity. }
  split.
  { rewrite verify_otp_run. unfold otps_of, users_of. cbn.
    rewrite !lookup_insert_eq. cbn. rewrite String.eqb_refl. reflexivity. }
  rewrite login_run. cbn. rewrite lookup_insert_eq. cbn.
  rewrite String.eqb_refl. reflexivity.
Qed.

Lemma signup_verify_login_witness :
  ∃ w1 w2,
    signup carol (fresh_install [])
    = (Return "User registered. OTP sent to console.", w1)
    ∧ last (console w1) = Some "[OTP] Your OTP for carol@example.com is: 314159"
    ∧ login (UserLogin.mk "carol@example.com" "Sunflower7") w1
      = (Raise (HTTPError 404 "Email not verified. Please verify OTP first."), w1)
    ∧ verify_otp (OTPVerify.mk "carol@example.com" "314159") w1
      = (Return "OTP verified successfully. User is now verified.", w2)
    ∧ login (UserLogin.mk "carol@example.com" "Sunflower7") w2
      = (Return "Login successful. welcome Carol!", w2).
Proof.
  exact (signup_verify_login carol (fresh_install []) eq_refl eq_refl eq_refl).
Defined.

(** ** Refusals of a verification *)

(** X5: [verify_otp] compares the supplied code with the stored one as
    strings: with no pending OTP for the email it fails with 404, with a
    different code it fails with 400 "Invalid OTP."; in both cases the
    world is unchanged, so a wrong guess uses up nothing and the stored code
    can still be presented.  It succeeds exactly when an entry is stored
    under the email and its code is the supplied string. *)
Theorem verify_otp_refusals (data : OTPVerify.t) (w : world) :
  let email := OTPVerify.email data in
  (otps_of w !! email = None →
   verify_otp data w = (Raise (HTTPError 404 "No OTP found for this email."), w))
  ∧ (∀ entry, otps_of w !! email = Some entry →
       Otp.otp entry ≠ OTPVerify.otp data →
       verify_otp data w = (Raise (HTTPError 400 "Invalid OTP."), w)
       ∧ ∃ w', verify_otp (OTPVerify.mk email (Otp.otp entry)) w
               = (Return "OTP verified successfully. User is now verified.", w'))
  ∧ ((∃ msg w', verify_otp data w = (Return msg, w'))
     ↔ ∃ entry, otps_of w !! email = Some entry
                ∧ Otp.otp entry = OTPVerify.otp data).
Proof.
  intros email. split_and!.
  - intros Hnone. rewrite verify_otp_run. cbn zeta. fold email.
    rewrite Hnone. reflexivity.
  - intros entry Hotp Hne. split.
    + rewrite verify_otp_run. cbn zeta. fold email. rewrite Hotp.
      destruct (String.eqb_spec (Otp.otp entry) (OTPVerify.otp data));
        [contradiction | reflexivity].
    + rewrite verify_otp_run. cbn. rewrite Hotp, String.eqb_refl. eauto.
  - rewrite verify_otp_run. cbn zeta. fold email.
    destruct (otps_of w !! email) as [entry|].
    + destruct (String.eqb_spec (Otp.otp entry) (OTPVerify.otp data)) as [He|He].
      * split; eauto.
      * split; [intros (msg & w' & [=]) | intros (e' & [= <-] & He'); contradiction].
    + split; [intros (msg & w' & [=]) | intros (e' & [=] & _)].
Qed.

Lemma verify_otp_refusals_witness :
  let w := pending (bob false) "271828" 0 [] in
  verify_otp (OTPVerify.mk "bob@example.com" "000000") w
  = (Raise (HTTPError 400 "Invalid OTP."), w)
  ∧ (∃ w', verify_otp (OTPVerify.mk "bob@example.com" "271828") w
           = (Return "OTP verified successfully. User is now verified.", w'))
  ∧ verify_otp (OTPVerify.mk "nobody@example.com" "271828") w
    = (Raise (HTTPError 404 "No OTP found for this email."), w).
Proof.
  intros w.
  destruct (verify_otp_refusals (OTPVerify.mk "bob@example.com" "000000") w)
    as (_ & Hwrong & _).
  destruct (Hwrong (Otp.mk "271828" 0) eq_refl) as [H400 Hstill]; [discriminate|].
  split; [exact H400|]. split; [exact Hstill|].
  apply (verify_otp_refusals (OTPVerify.mk "nobody@example.com" "271828") w).
  reflexivity.
Defined.

(** X6: [verify_otp] never reads the clock: under any other clock it
    gives the same answer and makes the same changes to the stores, so the
    age of a pending OTP plays no part in its verification. *)
Theorem verify_otp_ignores_clock (data : OTPVerify.t) (w : world) (c : source Q) :
  verify_otp data (set_clock c w)
  = (fst (verify_otp data w), set_clock c (snd (verify_otp data w))).
Proof.
  rewrite !verify_otp_run. unfold otps_of, users_of. cbn.
  destruct (load_data (OTPS_FILE w) !! OTPVerify.email data) as [entry|];
    [|reflexivity].
  destruct (String.eqb _ _); [|reflexivity]. cbn.
  destruct (load_data (USERS_FILE w) !! OTPVerify.email data); reflexivity.
Qed.

(** X7: a verification that succeeds although no account is stored under
    the email (the users file was lost, say) still answers "User is now
    verified", but it creates no account: the users file is not written,
    and a login with that email fails with "user not found.". *)
Theorem verify_otp_without_account (data : OTPVerify.t) (w : world) (entry : Otp.t)
    (password : string) :
  let email := OTPVerify.email data in
  otps_of w !! email = Some entry →
  Otp.otp entry = OTPVerify.otp data →
  users_of w !! email = None →
  ∃ w',
    verify_otp data w
    = (Return "OTP verified successfully. User is now verified.", w')
    ∧ USERS_FILE w' = USERS_FILE w
    ∧ login (UserLogin.mk email password) w'
      = (Raise (HTTPError 404 "user not found."), w').
Proof.
  intros email Hotp Hcode Hnone. rewrite verify_otp_run. cbn zeta. fold email.
  rewrite Hotp, Hcode, String.eqb_refl, Hnone. eexists. split; [reflexivity|].
  split; [reflexivity|]. rewrite login_run. cbn.
  unfold users_of in Hnone. rewrite Hnone. reflexivity.
Qed.

Lemma verify_otp_without_account_witness :
  ∃ w',
    verify_otp (OTPVerify.mk "ghost@example.com" "161803") orphan_otp
    = (Return "OTP verified successfully. User is now verified.", w')
    ∧ USERS_FILE w' = Missing
    ∧ login (UserLogin.mk "ghost@example.com" "Abcdefg1") w'
      = (Raise (HTTPError 404 "user not found."), w').
Proof.
  exact (verify_otp_without_account (OTPVerify.mk "ghost@example.com" "161803")
           orphan_otp (Otp.mk "161803" 0) "Abcdefg1" eq_refl eq_refl eq_refl).
Defined.

(** ** Resending, before and after *)

(** X8: [resend_otp] needs a pending OTP.  Without one it fails with 404
    "No signup found for this email." and does not even read the clock; in
    particular, once a code has been verified, a resend for that email is
    refused in this way, whatever the account. *)
Theorem resend_otp_needs_pending (data : ResendRequest.t) (w : world) :
  let email := ResendRequest.email data in
  (otps_of w !! email = None →
   resend_otp data w
   = (Raise (HTTPError 404 "No signup found for this email."), w))
  ∧ (∀ entry, otps_of w !! email = Some entry →
       ∃ w', verify_otp (OTPVerify.mk email (Otp.otp entry)) w
             = (Return "OTP verified successfully. User is now verified.", w')
             ∧ resend_otp data w'
               = (Raise (HTTPError 404 "No signup found for this email."), w')).
Proof.
  intros email. split.
  - intros Hnone. rewrite resend_otp_run. cbn zeta. fold email.
    rewrite Hnone. reflexivity.
  - intros entry Hotp. rewrite verify_otp_run. cbn.
    fold email. rewrite Hotp, String.eqb_refl.
    eexists. split; [reflexivity|].
    rewrite resend_otp_run. cbn zeta. fold email.
    replace (otps_of _ !! email) with (@None Otp.t); [reflexivity|].
    destruct (users_of w !! email); unfold otps_of; cbn;
      rewrite lookup_delete_eq; reflexivity.
Qed.

Lemma resend_otp_needs_pending_witness :
  let w := pending (bob false) "271828" 0 [] in
  resend_otp (ResendRequest.mk "nobody@example.com") w
  = (Raise (HTTPError 404 "No signup found for this email."), w)
  ∧ ∃ w', verify_otp (OTPVerify.mk "bob@example.com" "271828") w
          = (Return "OTP verified successfully. User is now verified.", w')
          ∧ resend_otp (ResendRequest.mk "bob@example.com") w'
            = (Raise (HTTPError 404 "No signup found for this email."), w').
Proof.
  intros w. split.
  - apply (resend_otp_needs_pending (ResendRequest.mk "nobody@example.com") w).
    reflexivity.
  - exact (proj2 (resend_otp_needs_pending (ResendRequest.mk "bob@example.com") w)
             (Otp.mk "271828" 0) eq_refl).
Defined.

(** X9: a resend that succeeds starts the cooldown again, from the second
    reading of the clock that it stored: the next resend, if the clock then
    shows less than 300 seconds more than that reading, is refused with 403
    and the remaining seconds counted from the new timestamp. *)
Theorem resend_otp_restarts_cooldown (data : ResendRequest.t) (w : world)
    (entry : Otp.t) :
  let email := ResendRequest.email data in
  let t0 := feed (clock w) (taken (clock w)) in
  let t1 := feed (clock w) (1 + taken (clock w)) in
  let t2 := feed (clock w) (2 + taken (clock w)) in
  otps_of w !! email = Some entry →
  (300 <= t0 - Otp.timestamp entry)%Q →
  (t2 - t1 < 300)%Q →
  ∃ w',
    resend_otp data w = (Return "OTP resent. Check console.", w')
    ∧ resend_otp data w'
      = (Raise (HTTPError 403 (wait_message (remaining_seconds (t2 - t1)))),
         set_clock (advance 1 (clock w')) w').
Proof.
  intros email t0 t1 t2 Hotp Hge Hlt.
  rewrite resend_otp_run. cbn zeta. fold email. rewrite Hotp.
  destruct (Qlt_le_dec _ _) as [Hlt0|_]; [fold t0 in Hlt0; lra|].
  eexists. split; [reflexivity|].
  rewrite resend_otp_run. unfold otps_of. cbn. rewrite lookup_insert_eq. cbn.
  destruct (Qlt_le_dec _ _) as [_|Hge']; [reflexivity|].
  subst t1 t2. cbn in Hlt. lra.
Qed.

Lemma resend_otp_restarts_cooldown_witness :
  let w := pending (bob false) "271828" 0 [300%Q; 301%Q; 311%Q] in
  ∃ w',
    resend_otp (ResendRequest.mk "bob@example.com") w
    = (Return "OTP resent. Check console.", w')
    ∧ resend_otp (ResendRequest.mk "bob@example.com") w'
      = (Raise (HTTPError 403 "Wait 290 seconds before resending OTP."),
         set_clock (advance 1 (clock w')) w').
Proof.
  intros w.
  assert (Hge : (300 <= feed (clock w) (taken (clock w)) - 0)%Q) by discriminate.
  assert (Hlt : (feed (clock w) (2 + taken (clock w))
                 - feed (clock w) (1 + taken (clock w)) < 300)%Q) by reflexivity.
  exact (resend_otp_restarts_cooldown (ResendRequest.mk "bob@example.com") w
           (Otp.mk "271828" 0) eq_refl Hge Hlt).
Defined.

(** ** The listings *)

Lemma elem_of_values {A} (m : gmap string A) (x : A) :
  x ∈ values m ↔ ∃ k, m !! k = Some x.
Proof.
  unfold values. rewrite list_elem_of_fmap. split.
  - intros ([k y] & -> & Hin). exists k. apply elem_of_map_to_list, Hin.
  - intros (k & Hk). exists (k, x). split; [reflexivity|].
    apply elem_of_map_to_list, Hk.
Qed.

(** X10: [list_users] returns the stored accounts, each key once, and
    [get_verified_users] returns those of them whose [verified] is true;
    neither changes the world.  (The order of the lists is not
    modelled.) *)
Theorem listings_contents (w : world) :
  ∃ all verified,
    list_users w = (Return all, w)
    ∧ get_verified_users w = (Return verified, w)
    ∧ (∀ u, u ∈ all ↔ ∃ k, users_of w !! k = Some u)
    ∧ length all = size (users_of w)
    ∧ (∀ u, u ∈ verified ↔ u ∈ all ∧ User.verified u = true).
Proof.
  exists (values (users_of w)), (List.filter User.verified (values (users_of w))).
  split_and!; try reflexivity.
  - apply elem_of_values.
  - unfold values. rewrite length_fmap. apply length_map_to_list.
  - intros u. rewrite !list_elem_of_In. apply filter_In.
Qed.

(** ** What every request keeps *)

Ltac serve_cases r :=
  destruct r as [user|data|data|data|product]; cbn [serve];
  [rewrite signup_run | rewrite verify_otp_run | rewrite resend_otp_run
  | rewrite login_run | rewrite add_product_run];
  cbn zeta; repeat case_match; cbn [forget snd fst].

Lemma accounts_step (r : request) (w : world) (k : string) (u : User.t) :
  users_of w !! k = Some u →
  ∃ u', users_of (snd (serve r w)) !! k = Some u'
        ∧ User.id u' = User.id u ∧ User.name u' = User.name u
        ∧ User.email u' = User.email u ∧ User.password u' = User.password u
        ∧ (User.verified u = true → User.verified u' = true).
Proof.
  intros Hu. serve_cases r.
  all: try (exists u; split_and!; [exact Hu | reflexivity..| auto]).
  all: unfold users_of in *; cbn.
  - exists u. rewrite lookup_insert_ne; [split_and!; auto|].
    intros <-. match goal with H : ¬ is_Some _ |- _ => apply H end. eauto.
  - destruct (decide (OTPVerify.email data = k)) as [<-|Hne].
    + rewrite lookup_insert_eq.
      match goal with H : _ !! OTPVerify.email data = Some ?t |- _ =>
        rewrite Hu in H; injection H as <- end.
      eexists. split; [reflexivity|]. split_and!; auto.
    + rewrite lookup_insert_ne by exact Hne. exists u. split_and!; auto.
Qed.

(** X11: no request deletes an account or changes its id, name, email or
    password, and none takes [verified] back from true to false: whatever
    requests are served, an account stored before them is stored after
    them, the same but for a [verified] that may have become true. *)
Theorem accounts_persist (rs : list request) (w : world) (k : string) (u : User.t) :
  users_of w !! k = Some u →
  ∃ u', users_of (serve_all rs w) !! k = Some u'
        ∧ User.id u' = User.id u ∧ User.name u' = User.name u
        ∧ User.email u' = User.email u ∧ User.password u' = User.password u
        ∧ (User.verified u = true → User.verified u' = true).
Proof.
  revert w u. induction rs as [|r rs IH]; intros w u Hu; cbn.
  - exists u. split_and!; auto.
  - destruct (accounts_step r w k u Hu) as (u1 & Hu1 & Hid & Hname & Hemail & Hpw & Hv).
    destruct (IH _ u1 Hu1) as (u' & Hu' & Hid' & Hname' & Hemail' & Hpw' & Hv').
    exists u'. split_and!; try congruence. auto.
Qed.

Lemma accounts_persist_witness :
  let w := pending (bob false) "271828" 0 [] in
  let history := [VerifyOtp (OTPVerify.mk "bob@example.com" "271828");
                  Signup carol;
                  Signup (UserCreate.mk "Mallory" "bob@example.com" "Sunflower7")] in
  ∃ u', users_of (serve_all history w) !! "bob@example.com" = Some u'
        ∧ User.id u' = "u0" ∧ User.name u' = "Bob"
        ∧ User.email u' = "bob@example.com" ∧ User.password u' = "Abcdefg1".
Proof.
  intros w history.
  destruct (accounts_persist history w "bob@example.com" (bob false) eq_refl)
    as (u' & Hu' & Hid & Hname & Hemail & Hpw & _).
  exists u'. split_and!; assumption.
Defined.

Lemma lifecycle_step (r : request) (w : world) :
  lifecycle_consistent w → lifecycle_consistent (snd (serve r w)).
Proof.
  intros Hw. serve_cases r.
  all: try exact Hw.
  all: unfold lifecycle_consistent, users_of, otps_of in *; cbn; intros k.
  - destruct (decide (UserCreate.email user = k)) as [<-|Hne].
    + rewrite !lookup_insert_eq. split; [eauto | intros _; eauto].
    + rewrite !lookup_insert_ne by exact Hne. apply Hw.
  - destruct (decide (OTPVerify.email data = k)) as [<-|Hne].
    + rewrite lookup_delete_eq, lookup_insert_eq. split.
      * intros [x Hx]. discriminate.
      * intros (u & [= <-] & Hv). discriminate.
    + rewrite lookup_delete_ne, lookup_insert_ne by exact Hne. apply Hw.
  - destruct (decide (OTPVerify.email data = k)) as [<-|Hne].
    + rewrite lookup_delete_eq. split.
      * intros [x Hx]. discriminate.
      * intros (u & Hu & _). congruence.
    + rewrite lookup_delete_ne by exact Hne. apply Hw.
  - destruct (decide (ResendRequest.email data = k)) as [<-|Hne].
    + rewrite lookup_insert_eq. rewrite <- Hw. split; eauto.
    + rewrite lookup_insert_ne by exact Hne. apply Hw.
Qed.

Lemma fresh_install_consistent (readings : list Q) :
  lifecycle_consistent (fresh_install readings).
Proof.
  intros k. unfold otps_of, users_of. cbn. rewrite !lookup_empty. split.
  - intros [x Hx]. discriminate.
  - intros (u & Hu & _). discriminate.
Qed.

(** X12: the account state machine.  If, for every email, a pending OTP is
    stored exactly when an unverified account is, then the same holds after
    any history of requests: signup creates both, a verification removes
    the one and flips the other, a resend replaces an OTP that was there.
    A fresh installation, with no files, is in such a state. *)
Theorem lifecycle_kept (rs : list request) (w : world) :
  lifecycle_consistent w → lifecycle_consistent (serve_all rs w).
Proof.
  revert w. induction rs as [|r rs IH]; intros w Hw; cbn; [exact Hw|].
  apply IH, lifecycle_step, Hw.
Qed.

Lemma lifecycle_kept_witness :
  lifecycle_consistent
    (serve_all [Signup carol; VerifyOtp (OTPVerify.mk "carol@example.com" "314159")]
               (fresh_install [])).
Proof.
  exact (lifecycle_kept _ (fresh_install []) (fresh_install_consistent [])).
Defined.

Lemma well_formed_step (r : request) (w : world) :
  well_formed w → well_formed (snd (serve r w)).
Proof.
  intros Hw. serve_cases r.
  all: try exact Hw.
  all: destruct Hw as [Husers Hotps]; unfold well_formed, users_of, otps_of in *; cbn.
  - split.
    + intros k u. destruct (decide (UserCreate.email user = k)) as [<-|Hne].
      * rewrite lookup_insert_eq. intros [= <-]. cbn. auto.
      * rewrite lookup_insert_ne by exact Hne. apply Husers.
    + intros k e. destruct (decide (UserCreate.email user = k)) as [<-|Hne].
      * rewrite lookup_insert_eq. intros [= <-]. apply next_otp_six_digits.
      * rewrite lookup_insert_ne by exact Hne. apply Hotps.
  - split.
    + intros k u. destruct (decide (OTPVerify.email data = k)) as [<-|Hne].
      * rewrite lookup_insert_eq. intros [= <-]. cbn. eapply Husers. eassumption.
      * rewrite lookup_insert_ne by exact Hne. apply Husers.
    + intros k e. rewrite lookup_delete_Some. intros [_ He]. eapply Hotps, He.
  - split; [exact Husers|].
    intros k e. rewrite lookup_delete_Some. intros [_ He]. eapply Hotps, He.
  - split; [exact Husers|].
    intros k e. destruct (decide (ResendRequest.email data = k)) as [<-|Hne].
    + rewrite lookup_insert_eq. intros [= <-]. apply next_otp_six_digits.
    + rewrite lookup_insert_ne by exact Hne. apply Hotps.
Qed.

Lemma fresh_install_well_formed (readings : list Q) :
  well_formed (fresh_install readings).
Proof.
  split; intros k x; unfold users_of, otps_of; cbn;
    rewrite lookup_empty; discriminate.
Qed.

(** X13: what is stored has passed the checks.  If every account is filed
    under its own email, with an email that [is_valid_email] accepts and a
    password that [is_strong_password] accepts, and every pending code is
    six decimal digits, then the same holds after any history of requests.
    A fresh installation is in such a state. *)
Theorem well_formed_kept (rs : list request) (w : world) :
  well_formed w → well_formed (serve_all rs w).
Proof.
  revert w. induction rs as [|r rs IH]; intros w Hw; cbn; [exact Hw|].
  apply IH, well_formed_step, Hw.
Qed.

Lemma well_formed_kept_witness :
  well_formed
    (serve_all [Signup carol; ResendOtp (ResendRequest.mk "carol@example.com")]
               (fresh_install [])).
Proof.
  exact (well_formed_kept _ (fresh_install []) (fresh_install_well_formed [])).
Defined.

(** ** Products *)

Lemma unique_ids_step (r : request) (w : world) :
  Inj (=) (=) (feed (uuids w)) → unique_ids w →
  unique_ids (snd (serve r w)) ∧ feed (uuids (snd (serve r w))) = feed (uuids w).
Proof.
  intros Hinj Hw. serve_cases r.
  all: try (split; [exact Hw | reflexivity]).
  all: destruct Hw as [Hnodup Hdrawn];
    unfold unique_ids, ids_drawn, products_of in *; cbn.
  - split; [|reflexivity]. split; [exact Hnodup|].
    intros p Hp. destruct (Hdrawn p Hp) as (i & Hi & Hid).
    exists i. split; [lia | exact Hid].
  - split; [|reflexivity]. split.
    + rewrite fmap_app. apply NoDup_app. split_and!.
      * exact Hnodup.
      * intros x Hx Hnew. apply list_elem_of_singleton in Hnew.
        apply list_elem_of_fmap in Hx as (p & -> & Hp).
        destruct (Hdrawn p Hp) as (i & Hi & Hid).
        cbn in Hnew. rewrite Hid in Hnew. apply Hinj in Hnew. lia.
      * apply NoDup_singleton.
    + intros p Hp. apply elem_of_app in Hp as [Hp | Hp].
      * destruct (Hdrawn p Hp) as (i & Hi & Hid). exists i. split; [lia | exact Hid].
      * apply list_elem_of_singleton in Hp as ->.
        exists (taken (uuids w)). split; [lia | reflexivity].
Qed.

(** X14: product ids stay distinct.  Provided the uuid source never gives
    the same value twice, and the stored products have distinct ids that
    were all drawn from it, every history of requests leaves the stored
    products with distinct ids, all drawn from the source: each product
    added gets an id that no earlier product has. *)
Theorem unique_ids_kept (rs : list request) (w : world) :
  Inj (=) (=) (feed (uuids w)) → unique_ids w → unique_ids (serve_all rs w).
Proof.
  revert w. induction rs as [|r rs IH]; intros w Hinj Hw; cbn; [exact Hw|].
  destruct (unique_ids_step r w Hinj Hw) as [Hw' Hfeed].
  apply IH; [rewrite Hfeed; exact Hinj | exact Hw'].
Qed.

Lemma fresh_install_unique_ids (readings : list Q) :
  unique_ids (fresh_install readings).
Proof.
  split; unfold ids_drawn, products_of; cbn; [apply NoDup_nil_2|].
  intros p Hp. inversion Hp.
Qed.

Lemma fresh_install_uuids_inj (readings : list Q) :
  Inj (=) (=) (feed (uuids (fresh_install readings))).
Proof.
  intros i j H. cbn in H. apply (inj (String.app "uuid-")) in H.
  apply (inj pretty) in H. exact H.
Qed.

Lemma unique_ids_kept_witness :
  let w := serve_all [AddProduct (rose 9.99); Signup carol; AddProduct (rose 12)]
                     (fresh_install []) in
  NoDup (Product.id <$> products_of w)
  ∧ Product.id <$> products_of w = ["uuid-0"; "uuid-2"].
Proof.
  intros w. split; [|reflexivity].
  exact (proj1 (unique_ids_kept _ (fresh_install []) (fresh_install_uuids_inj [])
                  (fresh_install_unique_ids []))).
Defined.

(** A price that the guard [price <= 0] lets through is above 0 or is a
    NaN. *)
Lemma passes_price_guard (x : pyfloat) :
  float_le x (Finite 0) = false ↔ x = NaN ∨ float_lt (Finite 0) x = true.
Proof.
  destruct x as [q|[]|]; cbn.
  - split.
    + intros H. right. rewrite H. reflexivity.
    + intros [H | H]; [discriminate|]. destruct (Qle_bool q 0); [discriminate | reflexivity].
  - split; [discriminate | intros [H | H]; discriminate].
  - split; auto.
  - split; auto.
Qed.

Lemma products_step (r : request) (w : world) :
  ∃ added,
    products_of (snd (serve r w)) = (products_of w ++ added)%list
    ∧ ∀ p, p ∈ added →
           float_le (Product.price p) (Finite 0) = false
           ∧ r = AddProduct (submitted p).
Proof.
  serve_cases r.
  all: try (exists []; split; [symmetry; apply app_nil_r | intros p Hp; inversion Hp]).
  eexists. unfold products_of. cbn. split; [reflexivity|].
  intros p Hp. apply list_elem_of_singleton in Hp as ->. cbn. split.
  - assumption.
  - destruct product. reflexivity.
Qed.

(** X15: the products store only grows, and at its end.  After any history
    of requests, [get_products] returns the products that were stored
    before, unchanged and in their order, followed by the products added
    since; each of these has the fields of an [add_product] request of the
    history, with a price that passed the guard [price <= 0]: a price above
    0, or a NaN, which no comparison stops.  [get_products] changes
    nothing. *)
Theorem products_only_grow (rs : list request) (w : world) :
  ∃ added,
    get_products (serve_all rs w)
    = (Return (products_of w ++ added)%list, serve_all rs w)
    ∧ ∀ p, p ∈ added →
           (Product.price p = NaN ∨ float_lt (Finite 0) (Product.price p) = true)
           ∧ AddProduct (submitted p) ∈ rs.
Proof.
  unfold get_products, get. fold (products_of (serve_all rs w)).
  revert w. induction rs as [|r rs IH]; intros w; cbn.
  - exists []. rewrite app_nil_r. split; [reflexivity | intros p Hp; inversion Hp].
  - destruct (products_step r w) as (a1 & E1 & H1).
    destruct (IH (snd (serve r w))) as (a2 & E2 & H2).
    exists (a1 ++ a2)%list. split.
    + injection E2 as E2. rewrite E2, E1, app_assoc. reflexivity.
    + intros p Hp. apply elem_of_app in Hp as [Hp | Hp].
      * destruct (H1 p Hp) as [Hprice ->].
        split; [apply passes_price_guard, Hprice | left].
      * destruct (H2 p Hp) as [Hprice Hin]. split; [exact Hprice | right; exact Hin].
Qed.

Lemma products_only_grow_witness :
  let w := serve_all [AddProduct (rose 9.99)] (fresh_install []) in
  let history := [AddProduct (rose 0); AddProduct rose_nan;
                  Login (UserLogin.mk "a" "b"); AddProduct (rose 12)] in
  ∃ added,
    get_products (serve_all history w)
    = (Return (products_of w ++ added)%list, serve_all history w)
    ∧ Product.price <$> added = [NaN; Finite 12].
Proof.
  intros w history.
  destruct (products_only_grow history w) as (added & Hget & _).
  exists added. split; [exact Hget|].
  vm_compute in Hget. injection Hget as Hadded. rewrite <- Hadded. reflexivity.
Defined.

(** ** A store whose file is lost *)

(** X16: the first write after a file is lost replaces it.  When the users
    file is missing or is not JSON, a signup that passes the checks leaves
    a users document with the new account alone; when the products file is
    missing or is not JSON, an [add_product] with a price above 0 leaves a
    products document with the new product alone. *)
Theorem first_write_replaces_lost_file
    (user : UserCreate.t) (product : ProductCreate.t) (w : world) :
  (no_document (USERS_FILE w) →
   is_valid_email (UserCreate.email user) = true →
   is_strong_password (UserCreate.password user) = true →
   ∃ w', signup user w = (Return "User registered. OTP sent to console.", w')
         ∧ USERS_FILE w'
           = Json {[UserCreate.email user :=
                      User.mk (feed (uuids w) (taken (uuids w))) (UserCreate.name user)
                        (UserCreate.email user) (UserCreate.password user) false]})
  ∧ (no_document (PRODUCTS_FILE w) →
     float_lt (Finite 0) (ProductCreate.price product) = true →
     ∃ p w', add_product product w = (Return p, w')
             ∧ submitted p = product
             ∧ PRODUCTS_FILE w' = Json [p]).
Proof.
  split.
  - intros Hlost Hvalid Hstrong. rewrite signup_run. cbn zeta.
    assert (Hempty : users_of w = ∅).
    { unfold users_of. destruct (USERS_FILE w); [reflexivity..|destruct Hlost]. }
    rewrite Hempty, Hvalid, Hstrong.
    destruct (decide _) as [[u Hu]|_]; [rewrite lookup_empty in Hu; discriminate|].
    eexists. split; reflexivity.
  - intros Hlost Hprice. rewrite add_product_run.
    assert (Hempty : products_of w = []).
    { unfold products_of. destruct (PRODUCTS_FILE w); [reflexivity..|destruct Hlost]. }
    rewrite Hempty.
    destruct (float_le _ _) eqn:Hle.
    + assert (Hpass : float_le (ProductCreate.price product) (Finite 0) = false)
        by (apply passes_price_guard; right; exact Hprice).
      congruence.
    + do 2 eexists. split; [reflexivity|]. split; [destruct product|]; reflexivity.
Qed.

Lemma first_write_replaces_lost_file_witness :
  let w := set_PRODUCTS_FILE Malformed (set_USERS_FILE Malformed (fresh_install [])) in
  (∃ w', signup carol w = (Return "User registered. OTP sent to console.", w')
         ∧ USERS_FILE w'
           = Json {["carol@example.com" :=
                      User.mk "uuid-0" "Carol" "carol@example.com" "Sunflower7" false]})
  ∧ ∃ p w', add_product (rose 9.99) w = (Return p, w')
            ∧ submitted p = rose 9.99
            ∧ PRODUCTS_FILE w' = Json [p].
Proof.
  intros w. split.
  - exact (proj1 (first_write_replaces_lost_file carol (rose 9.99) w) I eq_refl eq_refl).
  - exact (proj2 (first_write_replaces_lost_file carol (rose 9.99) w) I eq_refl).
Defined.

(** ** More on the validators *)

(** X17: what [is_valid_email] accepts, in full: a string passes exactly
    when it has the shape local-part@domain.tld (word characters, dots and
    hyphens around the [@], then a dot and word characters to the end), or
    is such a string followed by a single newline. *)
Theorem is_valid_email_accepts (s : string) :
  is_valid_email s = true
  ↔ email_shape s ∨ ∃ body, email_shape body ∧ s = body ++ nl.
Proof.
  rewrite is_valid_email_iff. split.
  - intros (body & Hshape & [-> | ->]); [left; exact Hshape | right; eauto].
  - intros [Hshape | (body & Hshape & ->)]; eauto.
Qed.

Lemma count_char_append (x : ascii) (a b : string) :
  count_char x (a ++ b) = (count_char x a + count_char x b)%nat.
Proof.
  induction a as [|c a IH]; [reflexivity|].
  rewrite append_cons. cbn. rewrite IH. lia.
Qed.

Lemma count_char_over (cls : ascii → bool) (x : ascii) (s : string) :
  (∀ c, c ∈ list_ascii_of_string s → cls c = true) → cls x = false →
  count_char x s = 0%nat.
Proof.
  intros Hall Hx. induction s as [|c s IH]; [reflexivity|]. cbn.
  destruct (Ascii.eqb_spec c x) as [->|_].
  - rewrite Hall in Hx by left. discriminate.
  - apply IH. intros y Hy. apply Hall. right. exact Hy.
Qed.

(** X18: an email that [is_valid_email] accepts has exactly one [@], with
    something before it, and no space. *)
Theorem valid_email_has_one_at (s : string) :
  is_valid_email s = true →
  count_char "@" s = 1%nat ∧ count_char " " s = 0%nat
  ∧ ∃ local rest, s = local ++ "@" ++ rest ∧ local ≠ "".
Proof.
  intros H. apply is_valid_email_iff in H
    as (body & (l & d & t & -> & [Hl Hla] & [_ Hda] & [_ Hta]) & Hs).
  assert (Hcount : ∀ x, Re.word_dot_dash x = false → x ≠ "."%char →
            count_char x (l ++ "@" ++ d ++ "." ++ t)
            = if Ascii.eqb "@" x then 1%nat else 0%nat).
  { intros x Hx Hdot. rewrite count_char_append.
    change ("@" ++ d ++ "." ++ t) with (String "@" (d ++ String "." t)).
    cbn [count_char]. rewrite count_char_append. cbn [count_char].
    rewrite (count_char_over _ x l Hla Hx), (count_char_over _ x d Hda Hx).
    rewrite (count_char_over Re.word x t Hta).
    - destruct (Ascii.eqb_spec "." x) as [<-|_]; [contradiction|].
      destruct (Ascii.eqb "@" x); reflexivity.
    - unfold Re.word_dot_dash in Hx. apply orb_false_iff in Hx as [Hx _].
      apply orb_false_iff in Hx as [Hx _]. exact Hx. }
  destruct Hs as [-> | ->].
  - rewrite !Hcount by (reflexivity || discriminate). split_and!; try reflexivity.
    exists l, (d ++ "." ++ t). split; [reflexivity | exact Hl].
  - split_and!.
    + rewrite (count_char_append _ (l ++ "@" ++ d ++ "." ++ t) nl), Hcount
        by (reflexivity || discriminate). reflexivity.
    + rewrite (count_char_append _ (l ++ "@" ++ d ++ "." ++ t) nl), Hcount
        by (reflexivity || discriminate). reflexivity.
    + exists l, (d ++ "." ++ t ++ nl). split; [|exact Hl].
      rewrite !append_assoc. reflexivity.
Qed.

Lemma valid_email_has_one_at_witness :
  count_char "@" "carol@example.com" = 1%nat.
Proof.
  exact (proj1 (valid_email_has_one_at "carol@example.com" eq_refl)).
Defined.

Lemma length_append (a b : string) :
  String.length (a ++ b) = (String.length a + String.length b)%nat.
Proof.
  induction a as [|c a IH]; [reflexivity|].
  rewrite append_cons. cbn. rewrite IH. reflexivity.
Qed.

Lemma elem_of_append (c : ascii) (a b : string) :
  c ∈ list_ascii_of_string (a ++ b)
  ↔ c ∈ list_ascii_of_string a ∨ c ∈ list_ascii_of_string b.
Proof.
  induction a as [|x a IH].
  - change ("" ++ b) with b. split; [auto | intros [H | H]; [inversion H | exact H]].
  - rewrite append_cons. cbn. rewrite !elem_of_cons, IH. tauto.
Qed.

(** X19: [is_strong_password] has no maximum length and forbids no
    character: a password that passes still passes when any text is put
    before or after it. *)
Theorem strong_password_extends (before s after : string) :
  is_strong_password s = true →
  is_strong_password (before ++ s ++ after) = true.
Proof.
  unfold is_strong_password, Re.re_search.
  rewrite !andb_true_iff, !Nat.leb_le, !search_one, !length_append.
  intros [[[Hlen Hu] Hl] Hd].
  assert (Hin : ∀ c, c ∈ list_ascii_of_string s →
                     c ∈ list_ascii_of_string (before ++ s ++ after)).
  { intros c Hc. rewrite !elem_of_append. auto. }
  destruct Hu as (u & Hu & Hucls), Hl as (l & Hl & Hlcls), Hd as (d & Hd & Hdcls).
  split_and!; [lia | exists u | exists l | exists d]; auto.
Qed.

Lemma strong_password_extends_witness :
  is_strong_password ("  " ++ "Abcdefg1" ++ "!! and a long tail") = true.
Proof.
  exact (strong_password_extends "  " "Abcdefg1" "!! and a long tail" eq_refl).
Defined.

(** ** Who gets verified *)

Lemma verified_step (r : request) (w : world) (k : string) (u' : User.t) :
  users_of (snd (serve r w)) !! k = Some u' → User.verified u' = true →
  (∃ u, users_of w !! k = Some u ∧ User.verified u = true)
  ∨ ∃ entry, otps_of w !! k = Some entry
             ∧ r = VerifyOtp (OTPVerify.mk k (Otp.otp entry)).
Proof.
  intros Hu' Hv. revert Hu'. serve_cases r.
  all: try (intros Hu'; left; exists u'; split; [exact Hu' | exact Hv]).
  all: unfold users_of, otps_of in *; cbn.
  - destruct (decide (UserCreate.email user = k)) as [<-|Hne].
    + rewrite lookup_insert_eq. intros [= <-]. discriminate.
    + rewrite lookup_insert_ne by exact Hne. intros Hu'. left. eauto.
  - destruct (decide (OTPVerify.email data = k)) as [<-|Hne].
    + intros _. right.
      match goal with H : _ !! OTPVerify.email data = Some ?e |- _ => exists e end.
      split; [assumption|].
      match goal with H : String.eqb _ _ = true |- _ => apply String.eqb_eq in H as -> end.
      destruct data. reflexivity.
    + rewrite lookup_insert_ne by exact Hne. intros Hu'. left. eauto.
Qed.

(** X20: only [verify_otp] verifies.  If an account is verified after a
    history of requests, then either it was verified before, or the
    history contains a [verify_otp] request for its email; no signup,
    resend, login or product request sets [verified]. *)
Theorem verified_only_by_verification
    (rs : list request) (w : world) (k : string) (u' : User.t) :
  users_of (serve_all rs w) !! k = Some u' → User.verified u' = true →
  (∃ u, users_of w !! k = Some u ∧ User.verified u = true)
  ∨ ∃ code, VerifyOtp (OTPVerify.mk k code) ∈ rs.
Proof.
  revert w. induction rs as [|r rs IH]; intros w Hu' Hv; cbn in Hu'.
  - left. eauto.
  - destruct (IH _ Hu' Hv) as [(u1 & Hu1 & Hv1) | (code & Hin)].
    + destruct (verified_step r w k u1 Hu1 Hv1) as [Hbefore | (entry & _ & ->)].
      * left. exact Hbefore.
      * right. exists (Otp.otp entry). left.
    + right. exists code. right. exact Hin.
Qed.

Lemma verified_only_by_verification_witness :
  let rs := [Signup carol; VerifyOtp (OTPVerify.mk "carol@example.com" "314159")] in
  ∃ code, VerifyOtp (OTPVerify.mk "carol@example.com" code) ∈ rs.
Proof.
  intros rs.
  destruct (verified_only_by_verification rs (fresh_install []) "carol@example.com"
              (User.mk "uuid-0" "Carol" "carol@example.com" "Sunflower7" true)
              eq_refl eq_refl) as [(u & Hu & _) | Hin].
  - vm_compute in Hu. discriminate.
  - exact Hin.
Defined.

(** ** Account ids *)

Lemma unique_account_ids_step (r : request) (w : world) :
  Inj (=) (=) (feed (uuids w)) → unique_account_ids w →
  unique_account_ids (snd (serve r w))
  ∧ feed (uuids (snd (serve r w))) = feed (uuids w).
Proof.
  intros Hinj Hw. serve_cases r.
  all: try (split; [exact Hw | reflexivity]).
  all: destruct Hw as [Huniq Hdrawn];
    unfold unique_account_ids, users_of in *; cbn.
  - split; [|reflexivity]. split.
    + intros k1 k2 u1 u2.
      destruct (decide (UserCreate.email user = k1)) as [<-|Hne1],
               (decide (UserCreate.email user = k2)) as [<-|Hne2];
        rewrite ?lookup_insert_eq, ?lookup_insert_ne by assumption.
      * reflexivity.
      * intros [= <-] Hu2 Hid. cbn in Hid.
        destruct (Hdrawn _ _ Hu2) as (i & Hi & Hid2).
        rewrite Hid2 in Hid. apply Hinj in Hid. lia.
      * intros Hu1 [= <-] Hid. cbn in Hid.
        destruct (Hdrawn _ _ Hu1) as (i & Hi & Hid1).
        rewrite Hid1 in Hid. apply Hinj in Hid. lia.
      * apply Huniq.
    + intros k u. destruct (decide (UserCreate.email user = k)) as [<-|Hne].
      * rewrite lookup_insert_eq. intros [= <-].
        exists (taken (uuids w)). split; [lia | reflexivity].
      * rewrite lookup_insert_ne by exact Hne. intros Hu.
        destruct (Hdrawn _ _ Hu) as (i & Hi & Hid). exists i. split; [lia | exact Hid].
  - assert (Hsame : ∀ k u', <[OTPVerify.email data := User.set_verified true t0]>
                              (load_data (USERS_FILE w)) !! k = Some u' →
                            ∃ u, load_data (USERS_FILE w) !! k = Some u
                                 ∧ User.id u' = User.id u).
    { intros k u'. destruct (decide (OTPVerify.email data = k)) as [<-|Hne].
      - rewrite lookup_insert_eq. intros [= <-]. eauto.
      - rewrite lookup_insert_ne by exact Hne. eauto. }
    split; [|reflexivity]. split.
    + intros k1 k2 u1 u2 Hu1 Hu2 Hid.
      destruct (Hsame _ _ Hu1) as (v1 & Hv1 & E1), (Hsame _ _ Hu2) as (v2 & Hv2 & E2).
      apply (Huniq k1 k2 v1 v2 Hv1 Hv2). congruence.
    + intros k u Hu. destruct (Hsame _ _ Hu) as (v & Hv & E).
      rewrite E. apply (Hdrawn _ _ Hv).
  - split; [|reflexivity]. split; [exact Huniq|].
    intros k u Hu. destruct (Hdrawn _ _ Hu) as (i & Hi & Hid).
    exists i. split; [lia | exact Hid].
Qed.

(** X21: account ids stay distinct.  Provided the uuid source never gives
    the same value twice, and the stored accounts have distinct ids that
    were all drawn from it, every history of requests leaves the stored
    accounts with distinct ids: each signup gives its account an id that no
    other account has, also when products draw uuids in between. *)
Theorem unique_account_ids_kept (rs : list request) (w : world) :
  Inj (=) (=) (feed (uuids w)) → unique_account_ids w →
  unique_account_ids (serve_all rs w).
Proof.
  revert w. induction rs as [|r rs IH]; intros w Hinj Hw; cbn; [exact Hw|].
  destruct (unique_account_ids_step r w Hinj Hw) as [Hw' Hfeed].
  apply IH; [rewrite Hfeed; exact Hinj | exact Hw'].
Qed.

Lemma fresh_install_unique_account_ids (readings : list Q) :
  unique_account_ids (fresh_install readings).
Proof.
  split; unfold users_of; cbn.
  - intros k1 k2 u1 u2 H. rewrite lookup_empty in H. discriminate.
  - intros k u H. rewrite lookup_empty in H. discriminate.
Qed.

Lemma unique_account_ids_kept_witness :
  let w := serve_all [Signup carol; AddProduct (rose 12);
                      Signup (UserCreate.mk "Dave" "dave@example.com" "Buttercup9")]
                     (fresh_install []) in
  (User.id <$> users_of w !! "carol@example.com") = Some "uuid-0"
  ∧ (User.id <$> users_of w !! "dave@example.com") = Some "uuid-2"
  ∧ unique_account_ids w.
Proof.
  intros w. split; [reflexivity|]. split; [reflexivity|].
  exact (unique_account_ids_kept _ (fresh_install []) (fresh_install_uuids_inj [])
           (fresh_install_unique_account_ids [])).
Defined.
